(** * The idle-display controller of the RemotePlatform skill

    A shallow embedding of [src/__init__.py] (class [RemotePlatform]):
    the idle-screen registry, the idle timer, the override state and the
    handlers that drive them, followed by the properties claimed of them.

    Conventions of the embedding.
    - A message payload ([message.data]) is a finite map from field names to
      JSON values ([pyval]).
    - The skill instance is a record ([skill]); a method is a computation in
      a state-and-exception monad ([M]): an uncaught Python exception ends
      the method and keeps the state changes made before it.
    - Whatever a method does to the outside (bus, scheduler, log) is appended
      to the [trace] of the state.
    - [self.gui] and [self.settings] are finite maps; the traffic by which
      the platform mirrors them to the display is not part of the trace.
    - [time.monotonic()] reads the [clock] field.  Time is an exact rational
      number of seconds; statements take no time except [time.sleep], which
      moves the clock on by its argument.  Floating-point rounding is not
      modelled; the conversion of an integer operand to a float is, with the
      [OverflowError] it raises when the integer has no float. *)

From Stdlib Require Import ZArith QArith Qminmax Lia List.
From stdpp Require Import gmap strings fin_maps.
Import ListNotations.

Set Warnings "-register-all".
Local Open Scope string_scope.
Local Open Scope Z_scope.

(** ** JSON values as Python sees them *)

Inductive pyval : Type :=
| VNone
| VBool (b : bool)
| VInt (z : Z)
| VFloat (q : Q)
| VStr (s : string)
| VList (l : list pyval)
| VDict (d : list (string * pyval)).

Inductive exn : Type :=
| KeyError (k : pyval)
| TypeError
| AttributeError
| IndexError
| NameError (name : string)
| StopIteration
| OverflowError.

(** [bool(v)] *)
Definition py_truthy (v : pyval) : bool :=
  match v with
  | VNone => false
  | VBool b => b
  | VInt z => negb (z =? 0)
  | VFloat q => negb (Qeq_bool q 0)
  | VStr s => negb (String.eqb s "")
  | VList l => match l with [] => false | _ => true end
  | VDict d => match d with [] => false | _ => true end
  end.

(** [hash(v)] succeeds: lists and dicts cannot be dictionary keys. *)
Definition py_hashable (v : pyval) : bool :=
  match v with
  | VList _ | VDict _ => false
  | _ => true
  end.

(** [isinstance(v, int)]: [bool] is a subclass of [int]. *)
Definition py_is_int (v : pyval) : option Z :=
  match v with
  | VInt z => Some z
  | VBool b => Some (if b then 1 else 0)
  | _ => None
  end.

(** The numeric value of a number ([bool], [int] or [float]). *)
Definition py_number (v : pyval) : option Q :=
  match v with
  | VInt z => Some (inject_Z z)
  | VBool b => Some (if b then 1%Q else 0%Q)
  | VFloat q => Some q
  | _ => None
  end.

Fixpoint assoc {A} (k : string) (d : list (string * A)) : option A :=
  match d with
  | [] => None
  | (k', v) :: d' => if String.eqb k k' then Some v else assoc k d'
  end.

(** [a == b] *)
Fixpoint py_eqb (a b : pyval) {struct a} : bool :=
  match a, b with
  | VNone, VNone => true
  | VStr s, VStr t => String.eqb s t
  | VList l, VList m =>
      (fix go (l m : list pyval) {struct l} : bool :=
         match l, m with
         | [], [] => true
         | x :: l', y :: m' => py_eqb x y && go l' m'
         | _, _ => false
         end) l m
  | VDict d, VDict e =>
      (length d =? length e)%nat &&
      (fix go (d : list (string * pyval)) {struct d} : bool :=
         match d with
         | [] => true
         | (k, v) :: d' =>
             match assoc k e with
             | Some w => py_eqb v w
             | None => false
             end && go d'
         end) d
  | VNone, _ | VStr _, _ | VList _, _ | VDict _, _ => false
  | _, _ =>
      match py_number a, py_number b with
      | Some x, Some y => Qeq_bool x y
      | _, _ => false
      end
  end.

(** [needle in hay] for strings: [needle] occurs in [hay]. *)
Fixpoint str_contains (needle hay : string) : bool :=
  String.prefix needle hay ||
  match hay with
  | EmptyString => false
  | String _ hay' => str_contains needle hay'
  end.

(** [s.endswith(suffix)] *)
Definition str_endswith (s suffix : string) : bool :=
  (String.length suffix <=? String.length s)%nat &&
  String.eqb
    (String.substring (String.length s - String.length suffix)
       (String.length suffix) s)
    suffix.


(** ** Rational time *)

(** [x < y] on exact rationals, as a test. *)
Definition Qltb (x y : Q) : bool :=
  (Qnum x * Zpos (Qden y) <? Qnum y * Zpos (Qden x))%Z.

(** [int(x)]: truncation towards zero. *)
Definition py_int (x : Q) : Z := Z.quot (Qnum x) (Zpos (Qden x)).

(** ** Dictionaries keyed by Python values

    [idle_screens] is a [dict] whose keys come from message payloads: a key
    is found with [==], an assignment to a key already present replaces the
    value in place, a new key goes to the end. *)

Definition pydict := list (pyval * pyval).

Fixpoint dict_get (k : pyval) (d : pydict) : option pyval :=
  match d with
  | [] => None
  | (k', v) :: d' => if py_eqb k' k then Some v else dict_get k d'
  end.

Fixpoint dict_set (k v : pyval) (d : pydict) : pydict :=
  match d with
  | [] => [(k, v)]
  | (k', v') :: d' =>
      if py_eqb k' k then (k', v) :: d' else (k', v') :: dict_set k v d'
  end.

(** ** Messages, effects and the state of the skill *)

Record message := Message { msg_type : string; msg_data : gmap string pyval }.

Inductive level := Debug | Info | Error | Exception.

(** The registration mechanisms used by [initialize]. *)
Inductive channel := BusOn | AddEvent | GuiHandler | GuiChanged.

Inductive method :=
| H_force_idle_screen | H_force_home | H_save_resting_screen
| H_handle_listener_ended | H_handle_failed_stt | H_on_handler_started
| H_on_handler_sleep | H_on_handler_awoken | H_on_handler_mouth_reset
| H_on_handler_speaking | H_on_gui_page_show | H_on_gui_page_interaction
| H_reset_face | H_on_register_idle | H_handle_skill_setting_show
| H_handle_device_settings | H_handle_device_homescreen_settings
| H_show_idle_screen | H_handle_device_skill_settings | H_set_idle_screen
| H_on_handler_complete | H_handle_device_update_settings.

Inductive action :=
| Emit (m : message)                      (* self.bus.emit(m) *)
| CancelScheduled (name : string)         (* self.cancel_scheduled_event *)
| Schedule (name : string) (delay : Z)    (* self.schedule_event(show_idle_screen, delay, name) *)
| Sleep (d : Q)                           (* time.sleep(d) *)
| ShowPage (page : string)                (* self.gui.show_page(page) *)
| Subscribe (c : channel) (event : string) (h : method)
| Log (l : level) (text : string).

Record skill := Skill {
  idle_screens : pydict;
  override_idle : option (message * Q);
  idle_next : Q;
  has_show_page : bool;
  gui : gmap string pyval;
  settings : gmap string pyval;
  (* skill_setting_obj is {} or {"configs": skill_setting_list}: the value
     bound to "configs" is the list object itself *)
  skill_setting_obj_configs : bool;
  skill_setting_list : list (list (string * pyval));
  (* the one-shot event named IdleCheck pending in the scheduler, with the
     delay it was armed with *)
  idle_check : option Z;
  clock : Q;
  trace : list action
}.

Definition set_idle_screens (f : pydict -> pydict) (s : skill) : skill :=
  Skill (f (idle_screens s)) (override_idle s) (idle_next s) (has_show_page s)
    (gui s) (settings s) (skill_setting_obj_configs s) (skill_setting_list s)
    (idle_check s) (clock s) (trace s).

Definition set_override_idle (o : option (message * Q)) (s : skill) : skill :=
  Skill (idle_screens s) o (idle_next s) (has_show_page s)
    (gui s) (settings s) (skill_setting_obj_configs s) (skill_setting_list s)
    (idle_check s) (clock s) (trace s).

Definition set_idle_next (t : Q) (s : skill) : skill :=
  Skill (idle_screens s) (override_idle s) t (has_show_page s)
    (gui s) (settings s) (skill_setting_obj_configs s) (skill_setting_list s)
    (idle_check s) (clock s) (trace s).

Definition set_has_show_page (b : bool) (s : skill) : skill :=
  Skill (idle_screens s) (override_idle s) (idle_next s) b
    (gui s) (settings s) (skill_setting_obj_configs s) (skill_setting_list s)
    (idle_check s) (clock s) (trace s).

Definition set_gui (f : gmap string pyval -> gmap string pyval) (s : skill) : skill :=
  Skill (idle_screens s) (override_idle s) (idle_next s) (has_show_page s)
    (f (gui s)) (settings s) (skill_setting_obj_configs s) (skill_setting_list s)
    (idle_check s) (clock s) (trace s).

Definition set_settings (f : gmap string pyval -> gmap string pyval) (s : skill) : skill :=
  Skill (idle_screens s) (override_idle s) (idle_next s) (has_show_page s)
    (gui s) (f (settings s)) (skill_setting_obj_configs s) (skill_setting_list s)
    (idle_check s) (clock s) (trace s).

Definition set_skill_setting_obj_configs (b : bool) (s : skill) : skill :=
  Skill (idle_screens s) (override_idle s) (idle_next s) (has_show_page s)
    (gui s) (settings s) b (skill_setting_list s)
    (idle_check s) (clock s) (trace s).

Definition set_skill_setting_list
    (f : list (list (string * pyval)) -> list (list (string * pyval)))
    (s : skill) : skill :=
  Skill (idle_screens s) (override_idle s) (idle_next s) (has_show_page s)
    (gui s) (settings s) (skill_setting_obj_configs s) (f (skill_setting_list s))
    (idle_check s) (clock s) (trace s).

Definition set_idle_check (c : option Z) (s : skill) : skill :=
  Skill (idle_screens s) (override_idle s) (idle_next s) (has_show_page s)
    (gui s) (settings s) (skill_setting_obj_configs s) (skill_setting_list s)
    c (clock s) (trace s).

Definition set_clock (t : Q) (s : skill) : skill :=
  Skill (idle_screens s) (override_idle s) (idle_next s) (has_show_page s)
    (gui s) (settings s) (skill_setting_obj_configs s) (skill_setting_list s)
    (idle_check s) t (trace s).

Definition add_trace (a : action) (s : skill) : skill :=
  Skill (idle_screens s) (override_idle s) (idle_next s) (has_show_page s)
    (gui s) (settings s) (skill_setting_obj_configs s) (skill_setting_list s)
    (idle_check s) (clock s) (trace s ++ [a]).

(** ** The monad of methods *)

Definition M (A : Type) : Type := skill -> (A + exn) * skill.

Definition ret {A} (a : A) : M A := fun s => (inl a, s).
Definition raise {A} (e : exn) : M A := fun s => (inr e, s).
Definition bind {A B} (c : M A) (k : A -> M B) : M B :=
  fun s => match c s with
           | (inl a, s') => k a s'
           | (inr e, s') => (inr e, s')
           end.
Definition get : M skill := fun s => (inl s, s).
Definition modify (f : skill -> skill) : M unit := fun s => (inl tt, f s).
Definition lift {A} (r : A + exn) : M A := fun s => (r, s).

(** [try: body except Exception as e: handler(e)] *)
Definition try_except (body : M unit) (handler : exn -> M unit) : M unit :=
  fun s => match body s with
           | (inl a, s') => (inl a, s')
           | (inr e, s') => handler e s'
           end.

#[global] Instance M_ret : MRet M := @ret.
#[global] Instance M_bind : MBind M := fun A B k c => bind c k.

Definition pass : M unit := ret tt.
Definition when (b : bool) (c : M unit) : M unit := if b then c else pass.

Definition act (a : action) : M unit := modify (add_trace a).
Definition log (l : level) (text : string) : M unit := act (Log l text).
Definition bus_emit (m : message) : M unit := act (Emit m).
Definition monotonic : M Q := fun s => (inl (clock s), s).
Definition sleep (d : Q) : M unit :=
  modify (fun s => add_trace (Sleep d) (set_clock (clock s + d)%Q s)).

(** [self.cancel_scheduled_event(name)] and [self.schedule_event(handler,
    when, name)] belong to the host platform (class [MycroftSkill]), not to
    the source: here they record the call in the trace and keep the pending
    one-shot event.  The only event the skill ever names is IdleCheck, and
    the only handler it schedules is [show_idle_screen]. *)
Definition cancel_scheduled_event (name : string) : M unit :=
  modify (fun s => add_trace (CancelScheduled name) (set_idle_check None s)).
Definition schedule_event (delay : Z) (name : string) : M unit :=
  modify (fun s => add_trace (Schedule name delay) (set_idle_check (Some delay) s)).

(** The state and the outcome of running a method. *)
Definition exec {A} (c : M A) (s : skill) : skill := snd (c s).
Definition outcome {A} (c : M A) (s : skill) : A + exn := fst (c s).

(** What a run added to the trace: the bus messages sent from [s] on. *)
Definition emitted_in (t : list action) : list message :=
  omap (fun a => match a with Emit m => Some m | _ => None end) t.
Definition emitted {A} (c : M A) (s : skill) : list message :=
  emitted_in (drop (length (trace s)) (trace (exec c s))).

(** ** Python operations on payload values *)

(** [data[key]] *)
Definition getitem (data : gmap string pyval) (key : string) : pyval + exn :=
  match data !! key with
  | Some v => inl v
  | None => inr (KeyError (VStr key))
  end.

(** [data.get(key, dflt)] *)
Definition get_default (data : gmap string pyval) (key : string) (dflt : pyval) : pyval :=
  match data !! key with
  | Some v => v
  | None => dflt
  end.

(** [float(z)] exists: an integer converts to a float when it lies, in
    absolute value, below 2^1024 - 2^970, the least integer that rounds
    beyond the largest float. *)
Definition float_limit : Z := Eval vm_compute in (2 ^ 1024 - 2 ^ 970).

Definition int_fits_float (z : Z) : bool := Z.abs z <? float_limit.

Arguments int_fits_float : simpl never.

(** The value [v] takes as the other operand of a float in [x + v]: an
    integer is converted first, which raises [OverflowError] when it has no
    float; what is not a number raises [TypeError]. *)
Definition py_float_operand (v : pyval) : Q + exn :=
  match v with
  | VInt z => if int_fits_float z then inl (inject_Z z) else inr OverflowError
  | VBool b => inl (if b then 1%Q else 0%Q)
  | VFloat q => inl q
  | _ => inr TypeError
  end.

(** [needle in hay], for a string [needle] *)
Definition py_contains (needle : string) (hay : pyval) : bool + exn :=
  match hay with
  | VStr h => inl (str_contains needle h)
  | VList l => inl (existsb (fun x => py_eqb x (VStr needle)) l)
  | VDict d => inl (match assoc needle d with Some _ => true | None => false end)
  | _ => inr TypeError
  end.

(** [v[0]] *)
Definition py_getitem0 (v : pyval) : pyval + exn :=
  match v with
  | VList (x :: _) => inl x
  | VStr (String c _) => inl (VStr (String c EmptyString))
  | VList [] | VStr EmptyString => inr IndexError
  | VDict _ => inr (KeyError (VInt 0))
  | _ => inr TypeError
  end.

(** [v.endswith(suffix)] *)
Definition py_endswith (v : pyval) (suffix : string) : bool + exn :=
  match v with
  | VStr s => inl (str_endswith s suffix)
  | _ => inr AttributeError
  end.

(** [d.get(k)] on [idle_screens]; hashing [k] comes first. *)
Definition py_dict_get (k : pyval) (d : pydict) : pyval + exn :=
  if py_hashable k then
    inl (match dict_get k d with Some v => v | None => VNone end)
  else inr TypeError.

(** [d[k] = v] on [idle_screens] *)
Definition py_dict_set (k v : pyval) (d : pydict) : pydict + exn :=
  if py_hashable k then inl (dict_set k v d) else inr TypeError.

Fixpoint assoc_set {A} (k : string) (v : A) (d : list (string * A)) : list (string * A) :=
  match d with
  | [] => [(k, v)]
  | (k', v') :: d' =>
      if String.eqb k k' then (k', v) :: d' else (k', v') :: assoc_set k v d'
  end.

(** A sample of [str()], exact on strings, for concrete runs. *)
Definition str_sample (v : pyval) : string :=
  match v with
  | VStr s => s
  | VNone => "None"
  | VBool true => "True"
  | VBool false => "False"
  | _ => "?"
  end.

(** A sample of [repr()] on exceptions, for concrete runs. *)
Definition repr_sample (e : exn) : string :=
  match e with
  | KeyError k => "KeyError(" +:+ str_sample k +:+ ")"
  | TypeError => "TypeError()"
  | AttributeError => "AttributeError()"
  | IndexError => "IndexError()"
  | NameError n => "NameError(" +:+ n +:+ ")"
  | StopIteration => "StopIteration()"
  | OverflowError => "OverflowError()"
  end.

(** ** The methods of [RemotePlatform] *)

Section Controller.

(** Python's [str()] (as used by [str.format]) and [repr()] of an exception
    are builtins outside the source; the methods are written over them. *)
Variable py_str : pyval -> string.
Variable py_repr : exn -> string.

(** [__init__]: the state of a fresh instance, given the settings stored by
    the platform and the reading of the clock. *)
Definition new_skill (stored : gmap string pyval) (now : Q) : skill :=
  {| idle_screens := [];
     override_idle := None;
     idle_next := 0;
     has_show_page := false;
     gui := ∅;
     settings := <["use_listening_beep" := VBool true]>
                   (<["auto_brightness" := VBool false]> stored);
     skill_setting_obj_configs := false;
     skill_setting_list := [];
     idle_check := None;
     clock := now;
     trace := [] |}.

(** *** Manage the idle visual state *)

Definition cancel_idle_event : M unit :=
  modify (set_idle_next 0);;
  cancel_scheduled_event "IdleCheck".

Definition start_idle_event (offset : pyval) (weak : bool) : M unit :=
  (* with self.idle_lock: handlers run one at a time here *)
  now ← monotonic;
  o ← lift (py_float_operand offset);
  s ← get;
  if Qltb (now + o) (idle_next s) then
    log Info "No update, before next time"
  else
    log Info "Starting idle event";;
    try_except
      (when (negb weak)
         (now ← monotonic; modify (set_idle_next (now + o)));;
       (* Clear any existing checker *)
       cancel_scheduled_event "IdleCheck";;
       sleep (1 # 2);;
       schedule_event (py_int o) "IdleCheck";;
       log Info ("Showing idle screen in " +:+ py_str offset +:+ " seconds"))
      (fun e => log Exception (py_repr e)).

Definition show_idle_screen : M unit :=
  log Debug "Showing idle screen";;
  s ← get;
  screen ←
    match override_idle s with
    | Some (m, _) =>
        log Debug "Returning to override idle screen";;
        (* Restore the page overriding idle instead of the normal idle *)
        bus_emit m;;
        ret VNone
    | None =>
        match idle_screens s, gui s !! "selected" with
        | _ :: _, Some selected =>
            log Debug ("Showing Idle screen for " +:+ py_str selected);;
            lift (py_dict_get selected (idle_screens s))
        | _, _ => ret VNone
        end
    end;
  when (py_truthy screen)
    (bus_emit (Message (py_str screen +:+ ".idle") ∅)).

Definition force_idle_screen : M unit :=
  s ← get;
  match override_idle s with
  | Some (_, t0) =>
      now ← monotonic;
      if Qltb 2 (now - t0) then
        modify (set_override_idle None);;
        show_idle_screen
      else show_idle_screen
  | None => show_idle_screen
  end.

(** *** Idle screen mechanism *)

Definition force_home : M unit :=
  s ← get;
  selected ← lift (getitem (gui s) "selected");
  screen ← lift (py_dict_get selected (idle_screens s));
  when (py_truthy screen)
    (bus_emit (Message (py_str screen +:+ ".idle") ∅)).

Definition call_home_from_voc : M unit :=
  log Debug "back button pressed";;
  force_idle_screen.

Definition save_resting_screen : M unit :=
  log Debug "Saving resting screen";;
  s ← get;
  selected ← lift (getitem (gui s) "selected");
  modify (set_settings <["selected" := selected]>);;
  s ← get;
  selected ← lift (getitem (gui s) "selected");
  modify (set_gui <["selectedScreen" := selected]>).

Definition collect_resting_screens : M unit :=
  bus_emit (Message "mycroft.mark2.collect_idle" ∅);;
  sleep 1;;
  show_idle_screen.

Definition on_register_idle (m : message) : M unit :=
  match msg_data m !! "name", msg_data m !! "id" with
  | Some name, Some id =>
      s ← get;
      d ← lift (py_dict_set name id (idle_screens s));
      modify (set_idle_screens (fun _ => d));;
      log Info ("Registered " +:+ py_str name)
  | _, _ =>
      log Error "Malformed idle screen registration received"
  end.

Definition reset_face (m : message) : M unit :=
  sleep 1;;
  collect_resting_screens.

Definition set_idle_screen (m : message) : M unit :=
  selected ← lift (getitem (msg_data m) "selected");
  modify (set_gui <["selected" := selected]>);;
  save_resting_screen.

Definition handle_listener_ended (m : message) : M unit :=
  modify (set_has_show_page false);;
  modify (set_gui <["state" := VStr "thinking"]>);;
  act (ShowPage "all.qml").

Definition handle_failed_stt (m : message) : M unit :=
  show_idle_screen.

(** [stop]: clear [override_idle] and stop visemes; returns [False]. *)
Definition stop : M bool :=
  s ← get;
  match override_idle s with
  | Some (_, t0) =>
      now ← monotonic;
      when (Qltb 2 (now - t0))
        (modify (set_override_idle None);;
         show_idle_screen)
  | None => pass
  end;;
  modify (set_gui <["viseme" := VDict [("start", VInt 0); ("visemes", VList [])]]>);;
  ret false.

(** *** Manage the busy visual *)

Definition on_handler_started (m : message) : M unit :=
  let handler := get_default (msg_data m) "handler" (VStr "") in
  (* Ignoring handlers from this skill and from the background clock *)
  own ← lift (py_contains "RemotePlatform" handler);
  if (own : bool) then pass else
  clock_skill ← lift (py_contains "TimeSkill.update_display" handler);
  if (clock_skill : bool) then pass else
  pass.

Definition on_gui_page_interaction (m : message) : M unit :=
  log Info "Resetting idle counter to 30 seconds";;
  start_idle_event (VInt 30) false.

Definition on_gui_page_show (m : message) : M unit :=
  own ← lift (py_contains "remote-platform" (get_default (msg_data m) "__from" (VStr "")));
  when (negb own)
    ((* Some skill other than the handler is showing a page *)
     modify (set_has_show_page true);;
     (* If a skill overrides the idle do not switch page *)
     let override := get_default (msg_data m) "__idle" VNone in
     match override with
     | VBool true =>
         (* Disable idle screen *)
         cancel_idle_event;;
         now ← monotonic;
         modify (set_override_idle (Some (m, now)))
     | VBool false | VInt _ =>
         (* Set the indicated idle timeout *)
         log Info ("Overriding idle timer to " +:+ py_str override +:+ " seconds");;
         start_idle_event override false
     | _ =>
         page ← lift (getitem (msg_data m) "page");
         if py_truthy page then
           first ← lift (py_getitem0 page);
           idle_page ← lift (py_endswith first "idle.qml");
           (* Set default idle screen timer *)
           when (negb idle_page) (start_idle_event (VInt 30) false)
         else pass
     end).

Definition on_handler_mouth_reset (m : message) : M unit := pass.

Definition on_handler_sleep (m : message) : M unit :=
  modify (set_gui <["state" := VStr "resting"]>);;
  act (ShowPage "all.qml").

Definition on_handler_awoken (m : message) : M unit :=
  modify (set_gui <["state" := VStr "awake"]>);;
  act (ShowPage "all.qml").

Definition on_handler_complete (m : message) : M unit :=
  let handler := get_default (msg_data m) "handler" (VStr "") in
  (* Ignoring handlers from this skill and from the background clock *)
  own ← lift (py_contains "RemotePlatform" handler);
  if (own : bool) then pass else
  clock_skill ← lift (py_contains "TimeSkill.update_display" handler);
  if (clock_skill : bool) then pass else
  modify (set_has_show_page false);;
  (* self.hourglass_info is assigned nowhere: reading it raises
     AttributeError, which the handler swallows *)
  try_except (raise AttributeError) (fun _ => pass).

(** *** Skill settings *)

(** [next(item for item in items if item["skill_id"] == data["skill_id"])]:
    the position of the first match. *)
Fixpoint find_setting (items : list (list (string * pyval)))
    (data : gmap string pyval) : nat + exn :=
  match items with
  | [] => inr StopIteration
  | item :: rest =>
      match assoc "skill_id" item with
      | None => inr (KeyError (VStr "skill_id"))
      | Some x =>
          match data !! "skill_id" with
          | None => inr (KeyError (VStr "skill_id"))
          | Some y =>
              if py_eqb x y then inl O
              else match find_setting rest data with
                   | inl i => inl (S i)
                   | inr e => inr e
                   end
          end
      end
  end.

Definition handle_skill_setting_show (m : message) : M unit :=
  let data := msg_data m in
  method ← lift (getitem data "method");
  (if py_eqb method (VStr "set") then
     skill_id ← lift (getitem data "skill_id");
     setting_key ← lift (getitem data "setting_key");
     setting_type ← lift (getitem data "setting_type");
     current_value ← lift (getitem data "current_value");
     available_values ← lift (getitem data "available_values");
     modify (set_skill_setting_list (fun l => (l ++
       [[("skill_id", skill_id); ("setting_key", setting_key);
         ("setting_type", setting_type); ("current_value", current_value);
         ("available_values", available_values)]])%list))
   else
     method ← lift (getitem data "method");
     if py_eqb method (VStr "update") then
       s ← get;
       i ← lift (find_setting (skill_setting_list s) data);
       current_value ← lift (getitem data "current_value");
       modify (set_skill_setting_list
                 (alter (assoc_set "current_value" current_value) i));;
       s ← get;
       log Info (py_str (VDict (default [] (skill_setting_list s !! i))))
     else
       log Error "no method defined");;
  modify (set_skill_setting_obj_configs true);;
  (* json.dumps(skill_setting_obj): no such name in scope, so the
     assignment to self.gui['skillConfig'] is never reached *)
  raise (NameError "skill_setting_obj").

(** *** Initialisation *)

Definition initialize : M unit :=
  (* Prepare GUI Viseme structure *)
  modify (set_gui <["viseme" := VDict [("start", VInt 0); ("visemes", VList [])]]>);;
  (* Preselect Time and Date as resting screen *)
  s ← get;
  modify (set_gui <["selected" :=
            get_default (settings s) "selected" (VStr "AndroidHomescreen")]>);;
  act (Subscribe GuiChanged "" H_save_resting_screen);;
  act (Subscribe GuiHandler "mycroft.gui.screen.close" H_force_idle_screen);;
  act (Subscribe AddEvent "mycroft.gui.screen.close" H_force_idle_screen);;
  act (Subscribe BusOn "mycroft.gui.screen.close" H_force_idle_screen);;
  act (Subscribe AddEvent "mycroft.gui.forceHome" H_force_home);;
  try_except
    ((* Handle the 'waking' visual *)
     act (Subscribe AddEvent "recognizer_loop:record_end" H_handle_listener_ended);;
     act (Subscribe AddEvent "mycroft.speech.recognition.unknown" H_handle_failed_stt);;
     (* Handle the 'busy' visual *)
     act (Subscribe BusOn "mycroft.skill.handler.start" H_on_handler_started);;
     act (Subscribe BusOn "recognizer_loop:sleep" H_on_handler_sleep);;
     act (Subscribe BusOn "mycroft.awoken" H_on_handler_awoken);;
     act (Subscribe BusOn "enclosure.mouth.reset" H_on_handler_mouth_reset);;
     act (Subscribe BusOn "recognizer_loop:audio_output_end" H_on_handler_mouth_reset);;
     act (Subscribe BusOn "enclosure.mouth.viseme_list" H_on_handler_speaking);;
     act (Subscribe BusOn "gui.page.show" H_on_gui_page_show);;
     act (Subscribe BusOn "gui.page_interaction" H_on_gui_page_interaction);;
     act (Subscribe BusOn "mycroft.skills.initialized" H_reset_face);;
     act (Subscribe BusOn "mycroft.mark2.register_idle" H_on_register_idle);;
     act (Subscribe BusOn "gui.skill.settings.show" H_handle_skill_setting_show);;
     (* Handle device settings events *)
     act (Subscribe AddEvent "mycroft.device.settings" H_handle_device_settings);;
     (* Use Legacy for QuickSetting delegate *)
     act (Subscribe GuiHandler "mycroft.device.settings" H_handle_device_settings);;
     act (Subscribe GuiHandler "mycroft.device.settings.homescreen"
            H_handle_device_homescreen_settings);;
     act (Subscribe GuiHandler "mycroft.device.show.idle" H_show_idle_screen);;
     act (Subscribe GuiHandler "mycroft.device.settings.skillconfig"
            H_handle_device_skill_settings);;
     (* Handle idle selection *)
     act (Subscribe GuiHandler "mycroft.device.set.idle" H_set_idle_screen);;
     (* Show loading screen while starting up skills. *)
     modify (set_gui <["state" := VStr "loading"]>);;
     act (ShowPage "all.qml");;
     (* Collect Idle screens and display if skill is restarted *)
     collect_resting_screens)
    (fun _ => log Exception "In Remote Platform Skill").

(** *** The platform around the skill *)

(** The scheduler fires the pending IdleCheck event: it is a one-shot, and
    its handler is [show_idle_screen]. *)
Definition idle_check_fires : M unit :=
  s ← get;
  match idle_check s with
  | Some _ => modify (set_idle_check None);; show_idle_screen
  | None => pass
  end.

(** Time passes between two events. *)
Definition elapse (d : Q) : M unit :=
  modify (fun s => set_clock (clock s + d)%Q s).

End Controller.

(** ** Sequences of timer events *)

Inductive timer_op :=
| StartIdle (offset : pyval) (weak : bool)   (* start_idle_event(offset, weak) *)
| TimerFires                                 (* the IdleCheck event fires *)
| Elapse (d : Q).                            (* time passes *)

Section Runs.

Variable py_str : pyval -> string.
Variable py_repr : exn -> string.

Definition timer_step (op : timer_op) : M unit :=
  match op with
  | StartIdle offset weak => start_idle_event py_str py_repr offset weak
  | TimerFires => idle_check_fires py_str
  | Elapse d => elapse d
  end.

(** Each event is handled on the state left by the one before. *)
Definition timer_run (ops : list timer_op) (s : skill) : skill :=
  fold_left (fun s op => exec (timer_step op) s) ops s.


End Runs.


(** ** Sample events and states *)

Definition register_idle_msg (name id : pyval) : message :=
  Message "mycroft.mark2.register_idle" (<["name" := name]> (<["id" := id]> ∅)).

Definition set_idle_msg (selected : pyval) : message :=
  Message "mycroft.device.set.idle" (<["selected" := selected]> ∅).

(** A page shown by the weather skill, with the given [__idle] directive. *)
Definition page_show_msg (idle : pyval) : message :=
  Message "gui.page.show"
    (<["__idle" := idle]>
       (<["__from" := VStr "skill-weather"]>
          (<["page" := VList [VStr "weather.qml"]]> ∅))).

Definition handler_complete_msg (handler : string) : message :=
  Message "mycroft.skill.handler.complete" (<["handler" := VStr handler]> ∅).

Definition fresh : skill := new_skill ∅ 0.

(** A page-shown event with an empty payload. *)
Definition page_show_bare : message := Message "gui.page.show" ∅.

(** A registration that lacks the "id" field. *)
Definition register_idle_no_id : message :=
  Message "mycroft.mark2.register_idle" (<["name" := VStr "A"]> ∅).

(** The state half a second after a page interaction on a fresh skill: the
    idle screen is due at 30 seconds. *)
Definition after_interaction : skill :=
  exec (on_gui_page_interaction str_sample repr_sample
          (Message "gui.page_interaction" ∅)) fresh.


(** A fresh skill whose idle timer has just been cancelled. *)
Definition cancelled : skill := exec cancel_idle_event fresh.

(** "About": within one second. *)
Definition near (x y : Q) : Prop := (y - 1 <= x)%Q /\ (x <= y + 1)%Q.

(** A fresh skill with two screens registered and the second one selected. *)
Definition two_screens : skill :=
  set_gui <["selected" := VStr "B"]>
    (set_idle_screens (fun _ => [(VStr "A", VStr "id1"); (VStr "B", VStr "id2")])
       fresh).

(** The same, [age] seconds after a page asked for the idle screen to be
    suppressed. *)
Definition overridden (age : Q) : skill :=
  set_clock age (set_override_idle (Some (page_show_msg (VBool true), 0%Q)) two_screens).

(** ** The speaking visual, the home-screen settings and shutdown *)

(** [v[-1]] *)
Definition py_getitem_last (v : pyval) : pyval + exn :=
  match v with
  | VList l => match last l with Some x => inl x | None => inr IndexError end
  | VStr str =>
      match last (String.list_ascii_of_string str) with
      | Some c => inl (VStr (String c EmptyString))
      | None => inr IndexError
      end
  | VDict _ => inr (KeyError (VInt (-1)))
  | _ => inr TypeError
  end.

(** [v[1]] *)
Definition py_getitem1 (v : pyval) : pyval + exn :=
  match v with
  | VList l => match l !! 1%nat with Some x => inl x | None => inr IndexError end
  | VStr str =>
      match String.list_ascii_of_string str !! 1%nat with
      | Some c => inl (VStr (String c EmptyString))
      | None => inr IndexError
      end
  | VDict _ => inr (KeyError (VInt 1))
  | _ => inr TypeError
  end.

(** [v + n] for an integer literal [n] *)
Definition py_add_int (v : pyval) (n : Z) : pyval + exn :=
  match v with
  | VInt z => inl (VInt (z + n))
  | VBool b => inl (VInt ((if b then 1 else 0) + n))
  | VFloat q => inl (VFloat (q + inject_Z n))
  | _ => inr TypeError
  end.

(** A payload as a value: [message.data] stored as it is. *)
Definition data_value (data : gmap string pyval) : pyval :=
  VDict (map_to_list data).

(** The entry of the home-screen settings list for one screen. *)
Definition screen_entry (name id : pyval) : pyval :=
  VDict [("screenName", name); ("screenID", id)].

(** [[{'screenName': s, 'screenID': d[s]} for s in d]]: each key of [d] in
    turn, looked up in [d]. *)
Fixpoint screen_entries (keys : list pyval) (d : pydict) : list pyval + exn :=
  match keys with
  | [] => inl []
  | k :: rest =>
      match dict_get k d with
      | None => inr (KeyError k)
      | Some v =>
          match screen_entries rest d with
          | inl l => inl (screen_entry k v :: l)
          | inr e => inr e
          end
      end
  end.

(** The handlers [shutdown] takes off the bus, in order: each line of it is
    a [self.bus.remove(event, handler)]. *)
Definition shutdown : list (string * method) :=
  [("mycroft.skill.handler.start", H_on_handler_started);
   ("recognizer_loop:sleep", H_on_handler_sleep);
   ("mycroft.awoken", H_on_handler_awoken);
   ("enclosure.mouth.reset", H_on_handler_mouth_reset);
   ("recognizer_loop:audio_output_end", H_on_handler_mouth_reset);
   ("enclosure.mouth.viseme_list", H_on_handler_speaking);
   ("gui.page.show", H_on_gui_page_show);
   ("gui.page_interaction", H_on_gui_page_interaction);
   ("mycroft.mark2.register_idle", H_on_register_idle)].

(** The handlers put on the bus with [self.bus.on] along a trace. *)
Definition bus_handlers (t : list action) : list (string * method) :=
  omap (fun a => match a with
                 | Subscribe BusOn event h => Some (event, h)
                 | _ => None
                 end) t.

Definition handler_eqb (x y : string * method) : bool :=
  String.eqb (fst x) (fst y) &&
  match snd x, snd y with
  | H_force_idle_screen, H_force_idle_screen
  | H_force_home, H_force_home
  | H_save_resting_screen, H_save_resting_screen
  | H_handle_listener_ended, H_handle_listener_ended
  | H_handle_failed_stt, H_handle_failed_stt
  | H_on_handler_started, H_on_handler_started
  | H_on_handler_sleep, H_on_handler_sleep
  | H_on_handler_awoken, H_on_handler_awoken
  | H_on_handler_mouth_reset, H_on_handler_mouth_reset
  | H_on_handler_speaking, H_on_handler_speaking
  | H_on_gui_page_show, H_on_gui_page_show
  | H_on_gui_page_interaction, H_on_gui_page_interaction
  | H_reset_face, H_reset_face
  | H_on_register_idle, H_on_register_idle
  | H_handle_skill_setting_show, H_handle_skill_setting_show
  | H_handle_device_settings, H_handle_device_settings
  | H_handle_device_homescreen_settings, H_handle_device_homescreen_settings
  | H_show_idle_screen, H_show_idle_screen
  | H_handle_device_skill_settings, H_handle_device_skill_settings
  | H_set_idle_screen, H_set_idle_screen
  | H_on_handler_complete, H_on_handler_complete
  | H_handle_device_update_settings, H_handle_device_update_settings => true
  | _, _ => false
  end.

(** [bus.remove(event, handler)] on the list of handlers on the bus: the
    first occurrence goes, if there is one. *)
Fixpoint bus_remove (x : string * method) (l : list (string * method))
    : list (string * method) :=
  match l with
  | [] => []
  | y :: l' => if handler_eqb x y then l' else y :: bus_remove x l'
  end.

(** What is still on the bus after the removals [rs]. *)
Definition bus_after (rs l : list (string * method)) : list (string * method) :=
  fold_left (fun l x => bus_remove x l) rs l.

Section Speaking.

Variable py_str : pyval -> string.
Variable py_repr : exn -> string.

Definition on_handler_speaking (m : message) : M unit :=
  modify (set_gui <["viseme" := data_value (msg_data m)]>);;
  s ← get;
  when (negb (has_show_page s))
    (modify (set_gui <["state" := VStr "speaking"]>);;
     act (ShowPage "all.qml");;
     (* Show idle screen after the visemes are done (+ 2 sec). *)
     visemes ← lift (getitem (msg_data m) "visemes");
     cue ← lift (py_getitem_last visemes);
     finish ← lift (py_getitem1 cue);
     time ← lift (py_add_int finish 5);
     start_idle_event py_str py_repr time false).

Definition handle_device_homescreen_settings (m : message) : M unit :=
  s ← get;
  screens ← lift (screen_entries (map fst (idle_screens s)) (idle_screens s));
  modify (set_gui <["idleScreenList" := VDict [("screenBlob", VList screens)]]>);;
  s ← get;
  selected ← lift (getitem (gui s) "selected");
  modify (set_gui <["selectedScreen" := selected]>);;
  modify (set_gui <["state" := VStr "settings/homescreen_settings"]>);;
  act (ShowPage "all.qml").

Definition handle_device_update_settings (m : message) : M unit :=
  modify (set_gui <["state" := VStr "settings/updatedevice_settings"]>);;
  act (ShowPage "all.qml").

(** *** Calls made on the skill, one after the other *)

Inductive call :=
| Initialize
| RegisterIdle (m : message)
| SetIdleScreen (m : message)
| PageShow (m : message)
| PageInteraction (m : message)
| HandlerStarted (m : message)
| HandlerComplete (m : message)
| HandlerSleep (m : message)
| HandlerAwoken (m : message)
| MouthReset (m : message)
| Speaking (m : message)
| ListenerEnded (m : message)
| FailedStt (m : message)
| SkillsInitialized (m : message)
| SkillSettingShow (m : message)
| HomescreenSettings (m : message)
| UpdateSettings (m : message)
| ShowIdle
| ForceHome
| ForceIdle
| CallHome
| Stop
| IdleCheck          (* the scheduler fires the pending event *)
| Wait (d : Q).      (* time passes *)

Definition run_call (c : call) : M unit :=
  match c with
  | Initialize => initialize py_str
  | RegisterIdle m => on_register_idle py_str m
  | SetIdleScreen m => set_idle_screen m
  | PageShow m => on_gui_page_show py_str py_repr m
  | PageInteraction m => on_gui_page_interaction py_str py_repr m
  | HandlerStarted m => on_handler_started m
  | HandlerComplete m => on_handler_complete m
  | HandlerSleep m => on_handler_sleep m
  | HandlerAwoken m => on_handler_awoken m
  | MouthReset m => on_handler_mouth_reset m
  | Speaking m => on_handler_speaking m
  | ListenerEnded m => handle_listener_ended m
  | FailedStt m => handle_failed_stt py_str m
  | SkillsInitialized m => reset_face py_str m
  | SkillSettingShow m => handle_skill_setting_show py_str m
  | HomescreenSettings m => handle_device_homescreen_settings m
  | UpdateSettings m => handle_device_update_settings m
  | ShowIdle => show_idle_screen py_str
  | ForceHome => force_home py_str
  | ForceIdle => force_idle_screen py_str
  | CallHome => call_home_from_voc py_str
  | Stop => stop py_str;; pass
  | IdleCheck => idle_check_fires py_str
  | Wait d => elapse d
  end.

(** Each call runs on the state left by the one before, whether that one
    returned or raised. *)
Definition run_calls (cs : list call) (s : skill) : skill :=
  fold_left (fun s c => exec (run_call c) s) cs s.

End Speaking.

(** Keys that are hashable and different ([==]) from one another: what the
    keys of a Python [dict] are. *)
Fixpoint distinct_keys (d : pydict) : bool :=
  match d with
  | [] => true
  | (k, _) :: d' =>
      py_hashable k && forallb (fun kv => negb (py_eqb k (fst kv))) d'
      && distinct_keys d'
  end.

(** A speech of one viseme that ends at [finish]. *)
Definition viseme_msg (finish : pyval) : message :=
  Message "enclosure.mouth.viseme_list"
    (<["start" := VInt 0]>
       (<["visemes" := VList [VList [VStr "4"; finish]]]> ∅)).

(** A speech with no viseme at all. *)
Definition viseme_msg_empty : message :=
  Message "enclosure.mouth.viseme_list"
    (<["start" := VInt 0]> (<["visemes" := VList []]> ∅)).

(** A "set" event for the skill settings display. *)
Definition setting_set_msg : message :=
  Message "gui.skill.settings.show"
    (<["method" := VStr "set"]>
       (<["skill_id" := VStr "weather"]>
          (<["setting_key" := VStr "units"]>
             (<["setting_type" := VStr "select"]>
                (<["current_value" := VStr "metric"]>
                   (<["available_values" := VList [VStr "metric"; VStr "imperial"]]>
                      ∅)))))).

(** The "update" event that changes that setting. *)
Definition setting_update_msg : message :=
  Message "gui.skill.settings.show"
    (<["method" := VStr "update"]>
       (<["skill_id" := VStr "weather"]>
          (<["current_value" := VStr "imperial"]> ∅))).

(** A registration whose name is a list. *)
Definition register_idle_list_name : message :=
  register_idle_msg (VList [VStr "A"]) (VStr "id1").

(** The idle page itself, shown by another skill. *)
Definition idle_page_msg : message :=
  Message "gui.page.show"
    (<["__from" := VStr "skill-weather"]>
       (<["page" := VList [VStr "pages/idle.qml"]]> ∅)).

(** Two screens registered, and a third one selected. *)
Definition unregistered_selection : skill :=
  set_gui <["selected" := VStr "C"]> two_screens.

(** An override ten seconds old, with the idle timer pending. *)
Definition overridden_pending : skill :=
  set_idle_check (Some 30) (overridden 10).

(** A day in the life of the skill. *)
Definition sample_calls : list call :=
  [RegisterIdle (register_idle_msg (VStr "A") (VStr "id3"));
   PageShow (page_show_msg (VInt 15));
   Speaking (viseme_msg (VInt 2));
   IdleCheck;
   PageShow (page_show_msg (VBool true));
   Wait 1;
   ShowIdle;
   SkillSettingShow setting_set_msg;
   HomescreenSettings page_show_bare;
   RegisterIdle register_idle_list_name].

(** A computation keeps [P]: whatever state satisfies [P] before it does so
    after it, whether it returns or raises. *)
Definition keeps (P : skill -> Prop) {A} (c : M A) : Prop :=
  forall s, P s -> P (exec c s).

(** The state [s] with the trace [t] in place of its own. *)
Definition with_trace (t : list action) (s : skill) : skill :=
  Skill (idle_screens s) (override_idle s) (idle_next s) (has_show_page s)
    (gui s) (settings s) (skill_setting_obj_configs s) (skill_setting_list s)
    (idle_check s) (clock s) t.

(** The subscriptions of [on_handler_complete], on whatever channel and
    event. *)
Definition subscribes_handler_complete (a : action) : bool :=
  match a with
  | Subscribe _ _ H_on_handler_complete => true
  | _ => false
  end.

(** The calls that can end an override. *)
Definition may_clear_override (c : call) : bool :=
  match c with
  | ForceIdle | CallHome | Stop => true
  | _ => false
  end.

(** * Properties *)

(** ** Values and time *)

Example py_values_ex :
  str_contains "remote-platform" "skill-remote-platform.aiix" = true
  /\ str_contains "RemotePlatform" "TimeSkill.update_display" = false
  /\ str_endswith "pages/idle.qml" "idle.qml" = true
  /\ str_endswith "all.qml" "idle.qml" = false
  /\ py_eqb (VBool true) (VInt 1) = true
  /\ py_eqb (VList [VStr "a"; VInt 2]) (VList [VStr "a"; VFloat 2]) = true
  /\ py_eqb (VDict [("a", VInt 1)]) (VDict [("a", VInt 2)]) = false.
Proof. repeat split; reflexivity. Qed.

Lemma Qltb_lt x y : Qltb x y = true <-> (x < y)%Q.
Proof. unfold Qltb, Qlt. apply Z.ltb_lt. Qed.

Lemma Qltb_ge x y : Qltb x y = false <-> (y <= x)%Q.
Proof. unfold Qltb, Qle. apply Z.ltb_ge. Qed.

Lemma py_int_inject_Z z : py_int (inject_Z z) = z.
Proof. unfold py_int. simpl. apply Z.quot_1_r. Qed.

(** ** Running a method *)

(** Unfolds the monad, so that a method applied to a state computes. *)
Ltac run_method :=
  unfold emitted; unfold exec, outcome;
  unfold cancel_idle_event, cancel_scheduled_event, schedule_event, sleep,
    monotonic, bus_emit, log, act, when, pass, try_except, lift, modify, get,
    raise;
  unfold mbind, M_bind, bind, mret, M_ret, ret;
  cbn [fst snd].

(** Reduces [drop (length t) (((t ++ a) ++ b) ++ c)] to what follows [t]. *)
Ltac trace_suffix :=
  match goal with
  | |- context [drop (length ?t) _] =>
      let t0 := fresh "t" in
      set (t0 := t); rewrite <- ?app_assoc, drop_app_length; clear t0
  end.

Section Properties.

Variable py_str : pyval -> string.
Variable py_repr : exn -> string.

(** *** Registration *)

(** C9. A registration event without the "id" field, or without the "name"
    field, does not raise: the handler returns normally, and the state it
    leaves is the state it found with one error line added to the log, so
    [idle_screens] is unchanged. *)
Theorem on_register_idle_malformed (m : message) (s : skill) :
  msg_data m !! "id" = None \/ msg_data m !! "name" = None ->
  outcome (on_register_idle py_str m) s = inl tt
  /\ exec (on_register_idle py_str m) s
     = add_trace (Log Error "Malformed idle screen registration received") s
  /\ idle_screens (exec (on_register_idle py_str m) s) = idle_screens s.
Proof.
  intros H. unfold on_register_idle. run_method.
  destruct H as [H | H]; rewrite H.
  - destruct (msg_data m !! "name"); auto.
  - auto.
Qed.

(** *** The idle timer *)

(** C10. With an empty registry and no override, cancelling the idle timer
    and then showing the idle screen sends nothing on the bus: the run
    returns normally and leaves only the cancelled timer and a debug line. *)
Theorem cancel_then_show_empty_registry (s : skill) :
  idle_screens s = [] ->
  override_idle s = None ->
  emitted (cancel_idle_event;; show_idle_screen py_str) s = []
  /\ outcome (cancel_idle_event;; show_idle_screen py_str) s = inl tt
  /\ exec (cancel_idle_event;; show_idle_screen py_str) s
     = add_trace (Log Debug "Showing idle screen")
         (add_trace (CancelScheduled "IdleCheck")
            (set_idle_check None (set_idle_next 0 s))).
Proof.
  intros Hreg Hov. unfold show_idle_screen. run_method.
  cbn [override_idle idle_screens add_trace set_idle_check set_idle_next].
  rewrite Hov, Hreg. cbn [py_truthy fst snd trace add_trace set_idle_check set_idle_next].
  split; [| split]; try reflexivity.
  trace_suffix. reflexivity.
Qed.


(** The two outcomes of the gate of [start_idle_event], as equations. *)
Lemma start_idle_event_blocked (s : skill) (offset : pyval) (o : Q) (weak : bool) :
  py_float_operand offset = inl o ->
  (clock s + o < idle_next s)%Q ->
  start_idle_event py_str py_repr offset weak s
  = (inl tt, add_trace (Log Info "No update, before next time") s).
Proof.
  intros Hnum Hgate. apply Qltb_lt in Hgate.
  unfold start_idle_event. run_method. rewrite Hnum. cbn [fst snd].
  rewrite Hgate. reflexivity.
Qed.

Lemma start_idle_event_passes (s : skill) (offset : pyval) (o : Q) :
  py_float_operand offset = inl o ->
  (idle_next s <= clock s + o)%Q ->
  start_idle_event py_str py_repr offset false s
  = (inl tt,
     add_trace (Log Info ("Showing idle screen in " +:+ py_str offset +:+ " seconds"))
       (add_trace (Schedule "IdleCheck" (py_int o))
          (set_idle_check (Some (py_int o))
             (add_trace (Sleep (1 # 2))
                (set_clock (clock s + (1 # 2))%Q
                   (add_trace (CancelScheduled "IdleCheck")
                      (set_idle_check None
                         (set_idle_next (clock s + o)%Q
                            (add_trace (Log Info "Starting idle event") s))))))))).
Proof.
  intros Hnum Hgate. apply Qltb_ge in Hgate.
  unfold start_idle_event. run_method. rewrite Hnum. cbn [fst snd].
  rewrite Hgate. reflexivity.
Qed.

(** When the addition at the gate raises, the call ends there, the state
    untouched: the addition stands before the [try]. *)
Lemma start_idle_event_raises (s : skill) (offset : pyval) (e : exn) (weak : bool) :
  py_float_operand offset = inr e ->
  start_idle_event py_str py_repr offset weak s = (inr e, s).
Proof.
  intros Hnum. unfold start_idle_event. run_method. now rewrite Hnum.
Qed.

Lemma py_float_operand_int (n : Z) :
  int_fits_float n = true -> py_float_operand (VInt n) = inl (inject_Z n).
Proof. intros H. cbn. now rewrite H. Qed.

Lemma py_float_operand_big (n : Z) :
  int_fits_float n = false -> py_float_operand (VInt n) = inr OverflowError.
Proof. intros H. cbn. now rewrite H. Qed.

(** *** Pages shown by other skills *)

(** C7. A page-shown event from another sender with [__idle] set to [True]
    cancels the pending idle timer, arms no new one, and records the event
    and the current time as the override. *)
Theorem page_show_idle_true_suppresses (s : skill) (m : message) :
  py_contains "remote-platform" (get_default (msg_data m) "__from" (VStr ""))
    = inl false ->
  msg_data m !! "__idle" = Some (VBool true) ->
  let s' := exec (on_gui_page_show py_str py_repr m) s in
  outcome (on_gui_page_show py_str py_repr m) s = inl tt
  /\ idle_next s' = 0%Q
  /\ idle_check s' = None
  /\ override_idle s' = Some (m, clock s)
  /\ has_show_page s' = true
  /\ trace s' = (trace s ++ [CancelScheduled "IdleCheck"])%list.
Proof.
  intros Hfrom Hidle. unfold on_gui_page_show, get_default in *.
  run_method. rewrite Hfrom, Hidle. cbn. repeat split; reflexivity.
Qed.

(** C2, as the code has it. A page-shown event from another sender with an
    integer [__idle = n] that has a float returns normally; when no deadline
    later than now + n is pending it sets [idle_next] to now + n and arms
    the timer for [n]; when a later deadline is pending it changes neither
    the deadline nor the timer.  (An integer with no float makes the
    addition at the gate raise [OverflowError]: the page is marked as shown
    and nothing else changes.) *)
Theorem page_show_numeric_idle (s : skill) (m : message) (n : Z) :
  py_contains "remote-platform" (get_default (msg_data m) "__from" (VStr ""))
    = inl false ->
  msg_data m !! "__idle" = Some (VInt n) ->
  let s' := exec (on_gui_page_show py_str py_repr m) s in
  (int_fits_float n = true ->
   outcome (on_gui_page_show py_str py_repr m) s = inl tt
   /\ ((idle_next s <= clock s + inject_Z n)%Q ->
       idle_next s' = (clock s + inject_Z n)%Q /\ idle_check s' = Some n)
   /\ ((clock s + inject_Z n < idle_next s)%Q ->
       idle_next s' = idle_next s /\ idle_check s' = idle_check s))
  /\ (int_fits_float n = false ->
      outcome (on_gui_page_show py_str py_repr m) s = inr OverflowError
      /\ has_show_page s' = true
      /\ idle_next s' = idle_next s /\ idle_check s' = idle_check s).
Proof.
  intros Hfrom Hidle. unfold on_gui_page_show, get_default in *.
  run_method. rewrite Hfrom, Hidle. cbn [negb fst snd].
  set (s1 := add_trace _ _).
  assert (Hc : clock s1 = clock s) by reflexivity.
  assert (Hn : idle_next s1 = idle_next s) by reflexivity.
  assert (Hk : idle_check s1 = idle_check s) by reflexivity.
  split.
  - intros Hfit. apply py_float_operand_int in Hfit.
    destruct (Qlt_le_dec (clock s + inject_Z n) (idle_next s)) as [Hlt | Hle].
    + rewrite (start_idle_event_blocked s1 (VInt n) (inject_Z n) false);
        [| exact Hfit | now rewrite Hc, Hn].
      cbn [fst snd]. split; [reflexivity |]. split.
      * intros Hle. exfalso. exact (Qlt_not_le _ _ Hlt Hle).
      * intros _. split; reflexivity.
    + rewrite (start_idle_event_passes s1 (VInt n) (inject_Z n));
        [| exact Hfit | now rewrite Hc, Hn].
      cbn [fst snd]. split; [reflexivity |]. split.
      * intros _. cbn. rewrite py_int_inject_Z. split; reflexivity.
      * intros Hlt. exfalso. exact (Qlt_not_le _ _ Hlt Hle).
  - intros Hbig. apply py_float_operand_big in Hbig.
    rewrite (start_idle_event_raises s1 (VInt n) OverflowError false Hbig).
    repeat split.
Qed.

(** With an offset that the clock can be added to, [start_idle_event]
    returns normally. *)
Lemma start_idle_event_returns (s : skill) (offset : pyval) (o : Q) :
  py_float_operand offset = inl o ->
  outcome (start_idle_event py_str py_repr offset false) s = inl tt.
Proof.
  intros Hnum. unfold outcome.
  destruct (Qlt_le_dec (clock s + o) (idle_next s)) as [Hlt | Hle].
  - now rewrite (start_idle_event_blocked s offset o false).
  - now rewrite (start_idle_event_passes s offset o).
Qed.

(** C3, as the code has it. [on_gui_page_show] has no exception handling of
    its own.  For an event whose sender is a string (or absent):
    - from the controller itself, it returns at once and changes nothing;
    - from another sender, with [__idle] set to [True] or to an integer that
      has a float, it returns normally;
    - from another sender, with no such directive and a "page" field that is
      an empty list or a list that starts with a string, it returns
      normally;
    - from another sender, with no such directive and no "page" field, it
      raises [KeyError('page')]: [has_show_page] has been set by then and
      nothing else has changed;
    - from another sender, with [__idle] set to an integer that has no
      float, it raises [OverflowError]: [has_show_page] has been set and
      the override logged, and nothing else has changed. *)
Theorem on_gui_page_show_failure_semantics (s : skill) (m : message) (sender : string) :
  get_default (msg_data m) "__from" (VStr "") = VStr sender ->
  let directive := get_default (msg_data m) "__idle" VNone in
  (str_contains "remote-platform" sender = true ->
   on_gui_page_show py_str py_repr m s = (inl tt, s))
  /\ (str_contains "remote-platform" sender = false ->
      forall n : Z,
        py_is_int directive = Some n ->
        int_fits_float n = true ->
        outcome (on_gui_page_show py_str py_repr m) s = inl tt)
  /\ (str_contains "remote-platform" sender = false ->
      py_is_int directive = None ->
      forall pages : list pyval,
        msg_data m !! "page" = Some (VList pages) ->
        (forall p, head pages = Some p -> exists name, p = VStr name) ->
        outcome (on_gui_page_show py_str py_repr m) s = inl tt)
  /\ (str_contains "remote-platform" sender = false ->
      py_is_int directive = None ->
      msg_data m !! "page" = None ->
      on_gui_page_show py_str py_repr m s
      = (inr (KeyError (VStr "page")), set_has_show_page true s))
  /\ (str_contains "remote-platform" sender = false ->
      forall n : Z,
        py_is_int directive = Some n ->
        int_fits_float n = false ->
        on_gui_page_show py_str py_repr m s
        = (inr OverflowError,
           add_trace (Log Info ("Overriding idle timer to " +:+ py_str directive
                                +:+ " seconds"))
             (set_has_show_page true s))).
Proof.
  intros Hfrom directive. subst directive.
  unfold on_gui_page_show. rewrite Hfrom. cbn [py_contains].
  repeat split.
  - intros ->. reflexivity.
  - intros -> n Hn Hfit. run_method. cbn [negb fst snd].
    destruct (get_default (msg_data m) "__idle" VNone) as [ | [|] | z | | | | ];
      try discriminate Hn; try reflexivity.
    + apply (start_idle_event_returns _ (VBool false) 0%Q). reflexivity.
    + injection Hn as ->.
      apply (start_idle_event_returns _ (VInt n) (inject_Z n)).
      now apply py_float_operand_int.
  - intros -> Hn pages Hpage Hhead. run_method. cbn [negb fst snd].
    unfold getitem. rewrite Hpage.
    destruct (get_default (msg_data m) "__idle" VNone) as [ | [|] | z | | | | ];
      try discriminate Hn;
      (destruct pages as [| p rest]; [reflexivity |];
       destruct (Hhead p eq_refl) as [name ->]; cbn;
       destruct (str_endswith name "idle.qml"); cbn [negb fst snd];
       [reflexivity |
        apply (start_idle_event_returns _ (VInt 30) (inject_Z 30)); reflexivity]).
  - intros -> Hn Hpage. run_method. cbn [negb fst snd].
    unfold getitem. rewrite Hpage.
    destruct (get_default (msg_data m) "__idle" VNone) as [ | [|] | z | | | | ];
      try discriminate Hn; reflexivity.
  - intros -> n Hn Hbig. run_method. cbn [negb fst snd].
    destruct (get_default (msg_data m) "__idle" VNone) as [ | [|] | z | | | | ];
      try discriminate Hn; injection Hn as <-.
    + exfalso. revert Hbig. vm_compute. discriminate.
    + exfalso. revert Hbig. vm_compute. discriminate.
    + rewrite (start_idle_event_raises _ (VInt z) OverflowError false
                 (py_float_operand_big z Hbig)).
      reflexivity.
Qed.

(** [handle_skill_setting_show] ends in an exception on every event. *)
Lemma handle_skill_setting_show_raises (s : skill) (m : message) :
  exists e, outcome (handle_skill_setting_show py_str m) s = inr e.
Proof.
  unfold handle_skill_setting_show, getitem. run_method.
  destruct (msg_data m !! "method") as [method |]; [| eauto].
  cbn [fst snd].
  destruct (py_eqb method (VStr "set")).
  - repeat (match goal with
            | |- context [msg_data m !! ?k] => destruct (msg_data m !! k)
            end; cbn [fst snd]; [| eauto]).
    eauto.
  - destruct (py_eqb method (VStr "update")); cbn [fst snd]; [| eauto].
    destruct (find_setting _ _); cbn [fst snd]; [| eauto].
    destruct (msg_data m !! "current_value"); cbn [fst snd]; eauto.
Qed.

(** *** Handlers that complete *)

(** C5, as the code has it. [on_handler_complete], given a handler name (a
    string, or none, which counts as the empty name), returns normally; it
    resets [has_show_page] when the name contains neither RemotePlatform nor
    TimeSkill.update_display, and changes nothing when it contains either. *)
Theorem on_handler_complete_resets (s : skill) (m : message) (handler : string) :
  get_default (msg_data m) "handler" (VStr "") = VStr handler ->
  on_handler_complete m s
  = (inl tt,
     if str_contains "RemotePlatform" handler
        || str_contains "TimeSkill.update_display" handler
     then s else set_has_show_page false s).
Proof.
  intros Hh. unfold on_handler_complete. rewrite Hh. run_method.
  cbn [py_contains fst snd].
  destruct (str_contains "RemotePlatform" handler); [reflexivity |].
  destruct (str_contains "TimeSkill.update_display" handler); reflexivity.
Qed.

(** [initialize] subscribes no method to the end of a handler:
    [on_handler_complete] is attached to no event. *)
Lemma on_handler_complete_not_subscribed
    (stored : gmap string pyval) (now : Q) (c : channel) (event : string) :
  ~ In (Subscribe c event H_on_handler_complete)
      (trace (exec (initialize py_str) (new_skill stored now))).
Proof.
  unfold initialize, collect_resting_screens, show_idle_screen. run_method.
  cbn. intros H.
  repeat (destruct H as [H | H]; [discriminate H |]). exact H.
Qed.

(** *** Showing the idle screen *)

(** With an override, [show_idle_screen] sends the overriding event again. *)
Lemma show_idle_screen_override (s : skill) (m : message) (t0 : Q) :
  override_idle s = Some (m, t0) ->
  show_idle_screen py_str s
  = (inl tt,
     add_trace (Emit m)
       (add_trace (Log Debug "Returning to override idle screen")
          (add_trace (Log Debug "Showing idle screen") s))).
Proof.
  intros Hov. unfold show_idle_screen. run_method.
  cbn [override_idle add_trace]. rewrite Hov. reflexivity.
Qed.

(** Without one, it sends the idle event of the selected screen. *)
Lemma show_idle_screen_selected (s : skill) (selected screen : pyval) :
  override_idle s = None ->
  gui s !! "selected" = Some selected ->
  py_hashable selected = true ->
  dict_get selected (idle_screens s) = Some screen ->
  py_truthy screen = true ->
  show_idle_screen py_str s
  = (inl tt,
     add_trace (Emit (Message (py_str screen +:+ ".idle") ∅))
       (add_trace (Log Debug ("Showing Idle screen for " +:+ py_str selected))
          (add_trace (Log Debug "Showing idle screen") s))).
Proof.
  intros Hov Hsel Hhash Hget Htrue. unfold show_idle_screen. run_method.
  cbn [override_idle idle_screens gui add_trace]. rewrite Hov, Hsel.
  destruct (idle_screens s) as [| kv d] eqn:Hd; [discriminate Hget |].
  unfold py_dict_get. rewrite Hhash, Hget. cbn [fst snd]. rewrite Htrue.
  reflexivity.
Qed.

(** C6. [force_idle_screen] under an override set at [t0]: up to 2 seconds
    after [t0] it sends the overriding event again, nothing else, and keeps
    the override; more than 2 seconds after [t0] (so from 3 seconds on) it
    clears the override and the event it sends is the idle event of the
    screen selected in the registry. *)
Theorem force_idle_screen_override (s : skill) (m : message) (t0 : Q) :
  override_idle s = Some (m, t0) ->
  let s' := exec (force_idle_screen py_str) s in
  ((clock s - t0 <= 2)%Q ->
   emitted (force_idle_screen py_str) s = [m]
   /\ override_idle s' = Some (m, t0))
  /\ ((2 < clock s - t0)%Q ->
      override_idle s' = None
      /\ forall selected screen : pyval,
           gui s !! "selected" = Some selected ->
           py_hashable selected = true ->
           dict_get selected (idle_screens s) = Some screen ->
           py_truthy screen = true ->
           emitted (force_idle_screen py_str) s
           = [Message (py_str screen +:+ ".idle") ∅]).
Proof.
  intros Hov. split.
  - intros Hle. apply Qltb_ge in Hle.
    unfold emitted, exec, force_idle_screen. run_method.
    rewrite Hov. cbn [fst snd]. rewrite Hle.
    rewrite (show_idle_screen_override s m t0 Hov). cbn [fst snd].
    split; [| exact Hov].
    cbn [trace add_trace]. trace_suffix. reflexivity.
  - intros Hlt. apply Qltb_lt in Hlt.
    unfold emitted, exec, force_idle_screen. run_method.
    rewrite Hov. cbn [fst snd]. rewrite Hlt. split.
    + unfold show_idle_screen. run_method. cbn.
      destruct (idle_screens s); [reflexivity |].
      destruct (gui s !! "selected") as [sel |]; [| reflexivity].
      destruct (py_dict_get sel _) as [scr | e]; [| reflexivity].
      cbn. destruct (py_truthy scr); reflexivity.
    + intros selected screen Hsel Hhash Hget Htrue.
      rewrite (show_idle_screen_selected (set_override_idle None s) selected screen);
        try assumption; try reflexivity.
      cbn [fst snd trace add_trace set_override_idle].
      trace_suffix. reflexivity.
Qed.

(** *** The registry *)

Lemma py_eqb_refl (k : pyval) : py_hashable k = true -> py_eqb k k = true.
Proof.
  destruct k as [ | b | z | q | str | l | d ]; intros H; try discriminate H; cbn.
  - reflexivity.
  - destruct b; reflexivity.
  - apply Qeq_bool_iff. reflexivity.
  - apply Qeq_bool_iff. reflexivity.
  - apply String.eqb_refl.
Qed.

(** The value assigned to a key is the value read back. *)
Lemma dict_get_set (k v : pyval) (d : pydict) :
  py_hashable k = true -> dict_get k (dict_set k v d) = Some v.
Proof.
  intros Hk. induction d as [| [k' v'] d IH]; cbn.
  - now rewrite py_eqb_refl.
  - destruct (py_eqb k' k) eqn:E; cbn; rewrite E; [reflexivity | exact IH].
Qed.

Lemma on_register_idle_registers (s : skill) (m : message) (name id : pyval) :
  msg_data m !! "name" = Some name ->
  msg_data m !! "id" = Some id ->
  py_hashable name = true ->
  on_register_idle py_str m s
  = (inl tt,
     add_trace (Log Info ("Registered " +:+ py_str name))
       (set_idle_screens (fun _ => dict_set name id (idle_screens s)) s)).
Proof.
  intros Hn Hi Hh. unfold on_register_idle, py_dict_set. run_method.
  rewrite Hn, Hi, Hh. reflexivity.
Qed.

Lemma set_idle_screen_selects (s : skill) (m : message) (selected : pyval) :
  msg_data m !! "selected" = Some selected ->
  set_idle_screen m s
  = (inl tt,
     set_gui <["selectedScreen" := selected]>
       (set_settings <["selected" := selected]>
          (add_trace (Log Debug "Saving resting screen")
             (set_gui <["selected" := selected]> s)))).
Proof.
  intros Hsel. unfold set_idle_screen, save_resting_screen, getitem. run_method.
  rewrite Hsel. cbn [fst snd gui set_gui add_trace set_settings].
  rewrite lookup_insert_eq. reflexivity.
Qed.

(** C8. After the registration of a screen A with id1 and of a screen B with
    id2 (a non-empty string) and the selection of B, [show_idle_screen]
    without an override sends exactly one event, named id2.idle. *)
Theorem show_selected_registered_screen
    (s : skill) (m1 m2 m3 : message) (A B id1 id2 : string) :
  (forall x, py_str (VStr x) = x) ->
  msg_data m1 !! "name" = Some (VStr A) ->
  msg_data m1 !! "id" = Some (VStr id1) ->
  msg_data m2 !! "name" = Some (VStr B) ->
  msg_data m2 !! "id" = Some (VStr id2) ->
  msg_data m3 !! "selected" = Some (VStr B) ->
  id2 <> "" ->
  override_idle s = None ->
  let setup :=
    on_register_idle py_str m1;; on_register_idle py_str m2;; set_idle_screen m3 in
  outcome setup s = inl tt
  /\ outcome (show_idle_screen py_str) (exec setup s) = inl tt
  /\ emitted (show_idle_screen py_str) (exec setup s)
     = [Message (id2 +:+ ".idle") ∅].
Proof.
  intros Hstr Hn1 Hi1 Hn2 Hi2 Hsel Hid Hov setup. subst setup.
  unfold emitted, exec, outcome, mbind, M_bind, bind.
  rewrite (on_register_idle_registers s m1 _ _ Hn1 Hi1 eq_refl).
  rewrite (on_register_idle_registers _ m2 _ _ Hn2 Hi2 eq_refl).
  rewrite (set_idle_screen_selects _ m3 _ Hsel).
  cbn [fst snd]. split; [reflexivity |].
  rewrite (show_idle_screen_selected _ (VStr B) (VStr id2)).
  - cbn [fst snd trace add_trace set_gui set_settings set_idle_screens].
    split; [reflexivity |].
    trace_suffix. cbn. now rewrite Hstr.
  - exact Hov.
  - cbn [gui set_gui set_settings add_trace set_idle_screens].
    rewrite lookup_insert_ne by discriminate. apply lookup_insert_eq.
  - reflexivity.
  - cbn [idle_screens set_gui set_settings add_trace set_idle_screens].
    now apply dict_get_set.
  - cbn. destruct id2; [contradiction | reflexivity].
Qed.

(** *** The deadline kept over a run of timer events *)






End Properties.

(** * Further properties of the handlers *)

(** ** What a computation keeps *)

Lemma exec_bind {A B} (c : M A) (k : A -> M B) (s : skill) :
  exec (c ≫= k) s
  = match c s with
    | (inl a, s') => exec (k a) s'
    | (inr _, s') => s'
    end.
Proof.
  unfold exec, mbind, M_bind, bind. now destruct (c s) as [[a | e] s'].
Qed.

Lemma keeps_ret P {A} (a : A) : keeps P (ret a).
Proof. intros s H. exact H. Qed.

Lemma keeps_raise P {A} (e : exn) : keeps P (raise (A := A) e).
Proof. intros s H. exact H. Qed.

Lemma keeps_lift P {A} (r : A + exn) : keeps P (lift r).
Proof. intros s H. exact H. Qed.

Lemma keeps_bind P {A B} (c : M A) (k : A -> M B) :
  keeps P c -> (forall a, keeps P (k a)) -> keeps P (c ≫= k).
Proof.
  intros Hc Hk s H. specialize (Hc s H). unfold exec in *.
  unfold mbind, M_bind, bind. destruct (c s) as [[a | e] s']; cbn in *.
  - apply (Hk a s' Hc).
  - exact Hc.
Qed.

(** After [get], the continuation runs on the state that was read. *)
Lemma keeps_get_bind P {B} (k : skill -> M B) :
  (forall s, P s -> P (exec (k s) s)) -> keeps P (get ≫= k).
Proof. intros Hk s H. exact (Hk s H). Qed.

Lemma keeps_modify P (g : skill -> skill) :
  (forall s, P s -> P (g s)) -> keeps P (modify g).
Proof. intros Hg s H. exact (Hg s H). Qed.

Lemma keeps_try_except P (body : M unit) (handler : exn -> M unit) :
  keeps P body -> (forall e, keeps P (handler e)) -> keeps P (try_except body handler).
Proof.
  intros Hb Hh s H. specialize (Hb s H). unfold exec, try_except in *.
  destruct (body s) as [[a | e] s']; cbn in *.
  - exact Hb.
  - apply (Hh e s' Hb).
Qed.

(** Splits a computation along its binds and branches; what is left are the
    state updates and the methods it calls. *)
Ltac keeps_split :=
  repeat first
    [ progress unfold when, pass, log, bus_emit, act, monotonic, get,
        sleep, cancel_scheduled_event, schedule_event, cancel_idle_event
    | match goal with
      | |- keeps _ (ret _) => apply keeps_ret
      | |- keeps _ (raise _) => apply keeps_raise
      | |- keeps _ (lift _) => apply keeps_lift
      | |- keeps _ (mbind _ _) => apply keeps_bind; [| intro]
      | |- keeps _ (try_except _ _) => apply keeps_try_except; [| intro]
      | |- keeps _ (fun s => (inl _, s)) => intros ? ?; assumption
      | |- keeps _ (match ?x with _ => _ end) => destruct x
      | |- keeps _ (if ?x then _ else _) => destruct x
      | |- keeps _ (let _ := _ in _) => cbv zeta
      end ].

(** A property of the fields other than the trace, the clock and the timer
    survives the updates of those. *)
Ltac keeps_field :=
  keeps_split;
  try (apply keeps_modify; intros ? ?; cbn; assumption).

(** The same through the methods a call goes through, down to
    [show_idle_screen] and [start_idle_event]. *)
Ltac unfold_calls :=
  unfold initialize, collect_resting_screens, reset_face, set_idle_screen,
    save_resting_screen, on_register_idle, on_gui_page_show,
    on_gui_page_interaction, on_handler_started, on_handler_complete,
    on_handler_sleep, on_handler_awoken, on_handler_mouth_reset,
    on_handler_speaking, handle_listener_ended, handle_failed_stt,
    handle_skill_setting_show, handle_device_homescreen_settings,
    handle_device_update_settings, force_home, force_idle_screen,
    call_home_from_voc, stop, idle_check_fires, elapse.

Ltac keeps_calls :=
  repeat first [ progress keeps_split | progress unfold_calls ].

Section MoreProperties.

Variable py_str : pyval -> string.
Variable py_repr : exn -> string.

(** ** The registry over a run *)

Lemma show_idle_screen_keeps_registry (R : pydict -> Prop) :
  keeps (fun s => R (idle_screens s)) (show_idle_screen py_str).
Proof. unfold show_idle_screen. keeps_field. Qed.

Lemma start_idle_event_keeps_registry (R : pydict -> Prop) offset weak :
  keeps (fun s => R (idle_screens s)) (start_idle_event py_str py_repr offset weak).
Proof. unfold start_idle_event. keeps_field. Qed.

(** Every call but a registration leaves the registry as it is. *)
Lemma run_call_keeps_registry (R : pydict -> Prop) (c : call) :
  (forall m, c <> RegisterIdle m) ->
  keeps (fun s => R (idle_screens s)) (run_call py_str py_repr c).
Proof.
  intros Hc. destruct c; try (exfalso; exact (Hc _ eq_refl)); cbn [run_call];
    keeps_calls;
    first [ apply show_idle_screen_keeps_registry
          | apply start_idle_event_keeps_registry
          | apply keeps_modify; intros ? ?; cbn; assumption ].
Qed.

(** A registration changes the registry by one assignment, or not at all. *)
Lemma on_register_idle_registry (m : message) (s : skill) :
  idle_screens (exec (on_register_idle py_str m) s) = idle_screens s
  \/ exists name id,
       py_hashable name = true
       /\ idle_screens (exec (on_register_idle py_str m) s)
          = dict_set name id (idle_screens s).
Proof.
  unfold on_register_idle, py_dict_set. run_method.
  destruct (msg_data m !! "name") as [name |]; [| now left].
  destruct (msg_data m !! "id") as [id |]; [| now left].
  destruct (py_hashable name) eqn:Hh; [| now left].
  right. exists name, id. split; [exact Hh | reflexivity].
Qed.

Lemma run_calls_invariant (R : pydict -> Prop) :
  (forall k v d, py_hashable k = true -> R d -> R (dict_set k v d)) ->
  forall cs s, R (idle_screens s) ->
               R (idle_screens (run_calls py_str py_repr cs s)).
Proof.
  intros Hset cs. induction cs as [| c cs IH]; intros s H; [exact H |].
  cbn [run_calls fold_left]. apply IH.
  destruct c;
    try (apply (run_call_keeps_registry R); [discriminate | exact H]).
  cbn [run_call].
  destruct (on_register_idle_registry m s) as [-> | (name & id & Hh & ->)];
    [exact H | now apply Hset].
Qed.

Lemma forallb_dict_set (P : pyval -> bool) (k v : pyval) (d : pydict) :
  P k = true ->
  forallb (fun kv => P (fst kv)) d = true ->
  forallb (fun kv => P (fst kv)) (dict_set k v d) = true.
Proof.
  intros Hk. induction d as [| [k' v'] d IH]; cbn; intros H.
  - now rewrite Hk.
  - apply andb_true_iff in H as [H1 H2].
    destruct (py_eqb k' k); cbn; rewrite H1; [exact H2 | now apply IH].
Qed.

Lemma dict_set_distinct_keys (k v : pyval) (d : pydict) :
  py_hashable k = true ->
  distinct_keys d = true ->
  distinct_keys (dict_set k v d) = true.
Proof.
  intros Hk. induction d as [| [k' v'] d IH]; cbn; intros H.
  - now rewrite Hk.
  - apply andb_true_iff in H as [H H3]. apply andb_true_iff in H as [H1 H2].
    destruct (py_eqb k' k) eqn:E; cbn.
    + now rewrite H1, H2, H3.
    + rewrite H1, (IH H3), andb_true_r. cbn.
      apply (forallb_dict_set (fun x => negb (py_eqb k' x))); [| exact H2].
      now rewrite E.
Qed.

Lemma dict_set_keeps_key (q k v : pyval) (d : pydict) :
  is_Some (dict_get q d) -> is_Some (dict_get q (dict_set k v d)).
Proof.
  induction d as [| [k' v'] d IH]; cbn; intros H.
  - destruct H as [x Hx]. discriminate Hx.
  - destruct (py_eqb k' k); cbn; destruct (py_eqb k' q); eauto.
Qed.

(** X23. Over every sequence of calls, the keys of the registry stay hashable
    and different from one another: a name is registered at most once. *)
Theorem registry_keys_stay_distinct (cs : list call) (s : skill) :
  distinct_keys (idle_screens s) = true ->
  distinct_keys (idle_screens (run_calls py_str py_repr cs s)) = true.
Proof.
  apply (run_calls_invariant (fun d => distinct_keys d = true)).
  intros k v d Hk Hd. now apply dict_set_distinct_keys.
Qed.

(** X24. Over every sequence of calls, a name that is registered stays
    registered: no call removes an entry of the registry. *)
Theorem registered_screen_stays (cs : list call) (s : skill) (name : pyval) :
  is_Some (dict_get name (idle_screens s)) ->
  is_Some (dict_get name (idle_screens (run_calls py_str py_repr cs s))).
Proof.
  apply (run_calls_invariant (fun d => is_Some (dict_get name d))).
  intros k v d _ Hd. now apply dict_set_keeps_key.
Qed.

(** ** The deadline and the override over a run *)

Lemma run_calls_keeps (P : skill -> Prop) (ok : call -> bool) :
  (forall c, ok c = true -> keeps P (run_call py_str py_repr c)) ->
  forall cs s, forallb ok cs = true -> P s -> P (run_calls py_str py_repr cs s).
Proof.
  intros Hk cs. induction cs as [| c cs IH]; intros s Hok H; [exact H |].
  cbn in Hok. apply andb_true_iff in Hok as [Hc Hcs].
  cbn [run_calls fold_left]. apply IH; [exact Hcs |]. now apply Hk.
Qed.





Lemma show_idle_screen_keeps_override :
  keeps (fun s => is_Some (override_idle s)) (show_idle_screen py_str).
Proof. unfold show_idle_screen. keeps_field. Qed.

Lemma show_idle_screen_keeps_override_none :
  keeps (fun s => override_idle s = None) (show_idle_screen py_str).
Proof. unfold show_idle_screen. keeps_field. Qed.

Lemma start_idle_event_keeps_override offset weak :
  keeps (fun s => is_Some (override_idle s))
    (start_idle_event py_str py_repr offset weak).
Proof. unfold start_idle_event. keeps_field. Qed.

Lemma run_call_keeps_override (c : call) :
  may_clear_override c = false ->
  keeps (fun s => is_Some (override_idle s)) (run_call py_str py_repr c).
Proof.
  destruct c; try discriminate; intros _; cbn [run_call]; keeps_calls;
    first [ apply show_idle_screen_keeps_override
          | apply start_idle_event_keeps_override
          | apply keeps_modify; intros ? ?;
            cbn [override_idle set_idle_next set_idle_check set_clock add_trace
                 set_gui set_settings set_has_show_page set_override_idle
                 set_idle_screens set_skill_setting_list
                 set_skill_setting_obj_configs];
            first [assumption | eexists; reflexivity] ].
Qed.

(** X26. An override, once set, is ended only by [force_idle_screen] (also
    through [call_home_from_voc]) or [stop]: over every sequence of other
    calls, timer fires included, an override stays in place. *)
Theorem override_outlives_other_calls (cs : list call) (s : skill) :
  forallb (fun c => negb (may_clear_override c)) cs = true ->
  is_Some (override_idle s) ->
  is_Some (override_idle (run_calls py_str py_repr cs s)).
Proof.
  apply (run_calls_keeps (fun s => is_Some (override_idle s))).
  intros c Hc. apply run_call_keeps_override.
  now apply negb_true_iff in Hc.
Qed.

(** ** Registration and selection *)

Lemma py_eqb_str_r (k : pyval) (a : string) :
  py_eqb k (VStr a) = true -> k = VStr a.
Proof.
  destruct k as [ | b | z | q | str | l | d ]; cbn; try discriminate.
  intros H. apply String.eqb_eq in H. now subst.
Qed.

Lemma py_eqb_str_l (a : string) (q : pyval) :
  py_eqb (VStr a) q = true -> q = VStr a.
Proof.
  destruct q; cbn; try discriminate.
  intros H. apply String.eqb_eq in H. now subst.
Qed.

Lemma dict_get_set_other (a : string) (q v : pyval) (d : pydict) :
  q <> VStr a -> dict_get q (dict_set (VStr a) v d) = dict_get q d.
Proof.
  intros Hq.
  assert (Hne : py_eqb (VStr a) q = false).
  { destruct (py_eqb (VStr a) q) eqn:E; [| reflexivity].
    apply py_eqb_str_l in E. contradiction. }
  induction d as [| [k' v'] d IH]; cbn [dict_get dict_set].
  - now rewrite Hne.
  - destruct (py_eqb k' (VStr a)) eqn:E; cbn [dict_get dict_set].
    + apply py_eqb_str_r in E. subst k'. now rewrite Hne.
    + destruct (py_eqb k' q); [reflexivity | exact IH].
Qed.

(** X1. Registering a screen under a string name and reading the registry
    back: the name now gives the id of this registration, whatever it gave
    before, and every other key gives what it gave before. *)
Theorem register_then_lookup (s : skill) (m : message) (name : string) (id : pyval) :
  msg_data m !! "name" = Some (VStr name) ->
  msg_data m !! "id" = Some id ->
  let s' := exec (on_register_idle py_str m) s in
  outcome (on_register_idle py_str m) s = inl tt
  /\ dict_get (VStr name) (idle_screens s') = Some id
  /\ forall q, q <> VStr name ->
               dict_get q (idle_screens s') = dict_get q (idle_screens s).
Proof.
  intros Hn Hi. unfold exec, outcome.
  rewrite (on_register_idle_registers py_str s m _ _ Hn Hi eq_refl).
  cbn [fst snd idle_screens add_trace set_idle_screens].
  split; [reflexivity |]. split.
  - now apply dict_get_set.
  - intros q Hq. now apply dict_get_set_other.
Qed.

(** X2. A registration whose name is a list or an object raises
    [TypeError], and the state is left exactly as it was. *)
Theorem register_unhashable_name (s : skill) (m : message) (name id : pyval) :
  msg_data m !! "name" = Some name ->
  msg_data m !! "id" = Some id ->
  py_hashable name = false ->
  on_register_idle py_str m s = (inr TypeError, s).
Proof.
  intros Hn Hi Hh. unfold on_register_idle, py_dict_set. run_method.
  now rewrite Hn, Hi, Hh.
Qed.

(** X3. [set_idle_screen] checks nothing against the registry: whatever
    value the event selects ends up under [gui['selected']],
    [gui['selectedScreen']] and [settings['selected']], and the registry
    is not touched.  Without a "selected" field it raises [KeyError] and
    changes nothing. *)
Theorem set_idle_screen_stores_selection (s : skill) (m : message) :
  (forall v, msg_data m !! "selected" = Some v ->
     let s' := exec (set_idle_screen m) s in
     outcome (set_idle_screen m) s = inl tt
     /\ gui s' !! "selected" = Some v
     /\ gui s' !! "selectedScreen" = Some v
     /\ settings s' !! "selected" = Some v
     /\ idle_screens s' = idle_screens s)
  /\ (msg_data m !! "selected" = None ->
      set_idle_screen m s = (inr (KeyError (VStr "selected")), s)).
Proof.
  split.
  - intros v Hv. unfold exec, outcome.
    rewrite (set_idle_screen_selects s m v Hv).
    cbn [fst snd gui settings idle_screens set_gui set_settings add_trace].
    repeat split.
    + rewrite lookup_insert_ne by discriminate. apply lookup_insert_eq.
    + apply lookup_insert_eq.
    + apply lookup_insert_eq.
  - intros Hv. unfold set_idle_screen, getitem. run_method. now rewrite Hv.
Qed.

(** ** Showing the idle screen *)

(** X4. When the selected screen is not in the registry, [show_idle_screen]
    (no override) returns normally and sends nothing, even though other
    screens are registered; when the selection is a list or an object and
    the registry is not empty, it raises [TypeError]. *)
Theorem show_unregistered_selection (s : skill) (selected : pyval) :
  override_idle s = None ->
  gui s !! "selected" = Some selected ->
  (py_hashable selected = true ->
   dict_get selected (idle_screens s) = None ->
   outcome (show_idle_screen py_str) s = inl tt
   /\ emitted (show_idle_screen py_str) s = [])
  /\ (py_hashable selected = false ->
      idle_screens s <> [] ->
      outcome (show_idle_screen py_str) s = inr TypeError
      /\ emitted (show_idle_screen py_str) s = []).
Proof.
  intros Hov Hsel. split.
  - intros Hh Hget. unfold show_idle_screen, py_dict_get. run_method.
    cbn [override_idle idle_screens gui add_trace]. rewrite Hov, Hsel.
    destruct (idle_screens s) as [| kv d] eqn:Hd.
    + cbn. split; [reflexivity |]. now trace_suffix.
    + rewrite Hh, Hget. cbn. split; [reflexivity |]. now trace_suffix.
  - intros Hh Hne. unfold show_idle_screen, py_dict_get. run_method.
    cbn [override_idle idle_screens gui add_trace]. rewrite Hov, Hsel.
    destruct (idle_screens s) as [| kv d] eqn:Hd; [contradiction |].
    rewrite Hh. cbn. split; [reflexivity |]. now trace_suffix.
Qed.

(** X5. Whatever the state, [show_idle_screen] only adds to the trace, and
    what it adds holds at most one bus event: the registry, the override,
    the deadline, the timer, the display values and the clock are as
    before, whether it returns or raises. *)
Theorem show_idle_screen_only_reports (s : skill) :
  exists t,
    exec (show_idle_screen py_str) s = with_trace (trace s ++ t) s
    /\ (length (emitted_in t) <= 1)%nat.
Proof.
  unfold show_idle_screen, py_dict_get. run_method.
  cbn [override_idle idle_screens gui add_trace].
  destruct s as [reg ov nxt shown g st cfg lst chk clk tr].
  cbn [override_idle idle_screens gui trace].
  destruct ov as [[m t0] |];
    [| destruct reg as [| kv reg];
       [| destruct (g !! "selected") as [sel |];
          [destruct (py_hashable sel);
             [cbn [fst snd]; destruct (py_truthy _) |] |]]].
  all: unfold add_trace, with_trace; cbn; rewrite <- ?app_assoc; cbn [app].
  - exists [Log Debug "Showing idle screen";
            Log Debug "Returning to override idle screen"; Emit m].
    split; [reflexivity | cbn; lia].
  - exists [Log Debug "Showing idle screen"]. split; [reflexivity | cbn; lia].
  - eexists [Log Debug "Showing idle screen"; Log Debug _; Emit _].
    split; [reflexivity | cbn; lia].
  - eexists [Log Debug "Showing idle screen"; Log Debug _].
    split; [reflexivity | cbn; lia].
  - eexists [Log Debug "Showing idle screen"; Log Debug _].
    split; [reflexivity | cbn; lia].
  - exists [Log Debug "Showing idle screen"]. split; [reflexivity | cbn; lia].
Qed.

(** X6. When the idle timer fires under an override, the pending event is
    used up, the overriding event is sent again, alone, whatever the
    registry holds, and the override stays. *)
Theorem timer_fires_under_override (s : skill) (d : Z) (m : message) (t0 : Q) :
  idle_check s = Some d ->
  override_idle s = Some (m, t0) ->
  let s' := exec (idle_check_fires py_str) s in
  outcome (idle_check_fires py_str) s = inl tt
  /\ emitted (idle_check_fires py_str) s = [m]
  /\ idle_check s' = None
  /\ override_idle s' = Some (m, t0).
Proof.
  intros Hchk Hov. unfold emitted, exec, outcome, idle_check_fires. run_method.
  rewrite Hchk. cbn [fst snd].
  rewrite (show_idle_screen_override py_str (set_idle_check None s) m t0 Hov).
  cbn [fst snd trace add_trace set_idle_check idle_check override_idle].
  repeat split; [| exact Hov]. now trace_suffix.
Qed.

(** X7. [force_home] goes by the registry alone: it sends the idle event of
    the selected screen even while an override is in place, and leaves the
    override as it is.  With nothing selected it raises [KeyError] and
    changes nothing. *)
Theorem force_home_ignores_override (s : skill) :
  (forall selected screen,
     gui s !! "selected" = Some selected ->
     py_hashable selected = true ->
     dict_get selected (idle_screens s) = Some screen ->
     py_truthy screen = true ->
     outcome (force_home py_str) s = inl tt
     /\ emitted (force_home py_str) s = [Message (py_str screen +:+ ".idle") ∅]
     /\ override_idle (exec (force_home py_str) s) = override_idle s)
  /\ (gui s !! "selected" = None ->
      force_home py_str s = (inr (KeyError (VStr "selected")), s)).
Proof.
  split.
  - intros selected screen Hsel Hh Hget Htrue.
    unfold force_home, getitem, py_dict_get. run_method.
    rewrite Hsel. cbn [fst snd]. rewrite Hh, Hget. cbn [fst snd].
    rewrite Htrue. cbn. repeat split. now trace_suffix.
  - intros Hsel. unfold force_home, getitem. run_method. now rewrite Hsel.
Qed.

(** X8. [stop] does not show the idle screen by itself.  With no override,
    or with one set at most 2 seconds ago, it sends nothing, leaves the
    override as it is, resets the visemes and returns [False].  With an
    override older than 2 seconds it clears it and sends what
    [force_idle_screen] sends. *)
Theorem stop_and_override (s : skill) :
  (override_idle s = None
   \/ (exists m t0, override_idle s = Some (m, t0) /\ (clock s - t0 <= 2)%Q) ->
   outcome (stop py_str) s = inl false
   /\ emitted (stop py_str) s = []
   /\ override_idle (exec (stop py_str) s) = override_idle s
   /\ gui (exec (stop py_str) s)
      = <["viseme" := VDict [("start", VInt 0); ("visemes", VList [])]]> (gui s))
  /\ (forall m t0,
        override_idle s = Some (m, t0) -> (2 < clock s - t0)%Q ->
        override_idle (exec (stop py_str) s) = None
        /\ emitted (stop py_str) s = emitted (force_idle_screen py_str) s).
Proof.
  split.
  - intros [Hov | (m & t0 & Hov & Hage)]; unfold stop; run_method; rewrite Hov.
    + cbn. rewrite Hov. repeat split. now rewrite drop_all.
    + apply Qltb_ge in Hage. cbn [fst snd]. rewrite Hage. cbn.
      rewrite Hov. repeat split. now rewrite drop_all.
  - intros m t0 Hov Hage. apply Qltb_lt in Hage.
    unfold stop, force_idle_screen. run_method. rewrite Hov. cbn [fst snd].
    rewrite Hage.
    pose proof (show_idle_screen_keeps_override_none (set_override_idle None s) eq_refl) as Hnone.
    unfold exec in Hnone.
    destruct (show_idle_screen py_str (set_override_idle None s)) as [[[] | e] s1];
      cbn in *; split; auto.
Qed.

(** X9. [on_handler_started] changes nothing at all, whatever the event. *)
Theorem on_handler_started_changes_nothing (s : skill) (m : message) :
  exec (on_handler_started m) s = s.
Proof.
  unfold on_handler_started. run_method.
  destruct (py_contains "RemotePlatform" _) as [[|] | e]; try reflexivity.
  cbn [fst snd].
  destruct (py_contains "TimeSkill.update_display" _) as [[|] | e]; reflexivity.
Qed.

(** ** Pages and the idle timer *)

(** With an offset that the clock can be added to, the deadline after a
    non-weak [start_idle_event] is not before the one asked for. *)
Lemma start_idle_event_deadline_reached (s : skill) (offset : pyval) (o : Q) :
  py_float_operand offset = inl o ->
  (clock s + o <= idle_next (exec (start_idle_event py_str py_repr offset false) s))%Q.
Proof.
  intros Hnum. unfold exec.
  destruct (Qlt_le_dec (clock s + o) (idle_next s)) as [Hlt | Hle].
  - rewrite (start_idle_event_blocked py_str py_repr s offset o false Hnum Hlt).
    cbn. now apply Qlt_le_weak.
  - rewrite (start_idle_event_passes py_str py_repr s offset o Hnum Hle).
    cbn. apply Qle_refl.
Qed.

(** X10. A page interaction never raises, and after it the idle screen is
    not due before 30 seconds from now; unless a later deadline was
    pending, it is due exactly then and the timer is armed for 30. *)
Theorem page_interaction_postpones_idle (s : skill) (m : message) :
  let s' := exec (on_gui_page_interaction py_str py_repr m) s in
  outcome (on_gui_page_interaction py_str py_repr m) s = inl tt
  /\ (clock s + inject_Z 30 <= idle_next s')%Q
  /\ ((idle_next s <= clock s + inject_Z 30)%Q ->
      idle_next s' = (clock s + inject_Z 30)%Q /\ idle_check s' = Some 30).
Proof.
  unfold on_gui_page_interaction. run_method.
  set (s1 := add_trace _ s).
  split; [| split].
  - apply (start_idle_event_returns py_str py_repr s1 (VInt 30) (inject_Z 30)).
    reflexivity.
  - apply (start_idle_event_deadline_reached s1 (VInt 30) (inject_Z 30)).
    reflexivity.
  - intros Hle.
    rewrite (start_idle_event_passes py_str py_repr s1 (VInt 30) (inject_Z 30)
               eq_refl Hle).
    split; reflexivity.
Qed.

(** X11. Showing the idle page itself arms no timer: for a page-shown event
    from another sender, with no [True] or integer [__idle], whose first
    page ends in idle.qml, the handler only sets [has_show_page]. *)
Theorem page_show_of_idle_page (s : skill) (m : message)
    (page : string) (pages : list pyval) :
  py_contains "remote-platform" (get_default (msg_data m) "__from" (VStr ""))
    = inl false ->
  py_is_int (get_default (msg_data m) "__idle" VNone) = None ->
  msg_data m !! "page" = Some (VList (VStr page :: pages)) ->
  str_endswith page "idle.qml" = true ->
  on_gui_page_show py_str py_repr m s = (inl tt, set_has_show_page true s).
Proof.
  intros Hfrom Hidle Hpage Hend. unfold on_gui_page_show, getitem. run_method.
  rewrite Hfrom, Hpage. cbn [negb fst snd].
  destruct (get_default (msg_data m) "__idle" VNone) as [ | [|] | z | | | | ];
    try discriminate Hidle; cbn; rewrite Hend; reflexivity.
Qed.

Lemma start_idle_event_keeps_shown offset weak :
  keeps (fun s => has_show_page s = true)
    (start_idle_event py_str py_repr offset weak).
Proof. unfold start_idle_event. keeps_field. Qed.

(** X12. Once a page-shown event from another sender has been handled,
    [has_show_page] is set, also when the handler raised on the rest of the
    payload. *)
Theorem page_show_marks_page_shown (s : skill) (m : message) :
  py_contains "remote-platform" (get_default (msg_data m) "__from" (VStr ""))
    = inl false ->
  has_show_page (exec (on_gui_page_show py_str py_repr m) s) = true.
Proof.
  intros Hfrom. unfold on_gui_page_show.
  rewrite exec_bind. unfold lift at 1. rewrite Hfrom. cbn [when negb].
  rewrite exec_bind. unfold modify at 1.
  match goal with
  | |- has_show_page (exec ?c ?s0) = true =>
      enough (K : keeps (fun s => has_show_page s = true) c)
        by (apply K; reflexivity)
  end.
  keeps_split;
    first [ apply start_idle_event_keeps_shown
          | apply keeps_modify; intros ? ?; cbn; assumption ].
Qed.

(** X13. [__idle = False] is an integer to the handler, namely 0: from
    another sender, and with no deadline pending beyond now, it puts the
    deadline at now and arms the timer with no delay. *)
Theorem page_show_idle_false_is_zero (s : skill) (m : message) :
  py_contains "remote-platform" (get_default (msg_data m) "__from" (VStr ""))
    = inl false ->
  msg_data m !! "__idle" = Some (VBool false) ->
  (idle_next s <= clock s + 0)%Q ->
  let s' := exec (on_gui_page_show py_str py_repr m) s in
  outcome (on_gui_page_show py_str py_repr m) s = inl tt
  /\ idle_next s' = (clock s + 0)%Q
  /\ idle_check s' = Some 0
  /\ override_idle s' = override_idle s.
Proof.
  intros Hfrom Hidle Hgate. unfold on_gui_page_show, get_default in *.
  run_method. rewrite Hfrom, Hidle. cbn [negb fst snd].
  set (s1 := add_trace _ _).
  rewrite (start_idle_event_passes py_str py_repr s1 (VBool false) 0%Q eq_refl Hgate).
  repeat split.
Qed.

(** ** The speaking visual *)

(** X14. While a page shown by another skill is up ([has_show_page]), a
    viseme list only replaces [gui['viseme']]: no page is shown, the timer
    is left alone, and nothing is raised, whatever the payload. *)
Theorem speaking_respects_shown_page (s : skill) (m : message) :
  has_show_page s = true ->
  on_handler_speaking py_str py_repr m s
  = (inl tt, set_gui <["viseme" := data_value (msg_data m)]> s).
Proof.
  intros Hshown. unfold on_handler_speaking. run_method.
  cbn [has_show_page set_gui]. now rewrite Hshown.
Qed.

Lemma start_idle_event_keeps_gui (G : gmap string pyval -> Prop) offset weak :
  keeps (fun s => G (gui s)) (start_idle_event py_str py_repr offset weak).
Proof. unfold start_idle_event. keeps_field. Qed.

(** X15. With no page of another skill up, a viseme list whose last cue is
    a list with a number [finish] at index 1: the handler computes the
    offset [time = finish + 5]; when the clock can be added to it (an
    integer must have a float), the handler shows the speaking face,
    returns normally, and leaves the idle screen due no earlier than
    now + time. *)
Theorem speaking_schedules_idle (s : skill) (m : message)
    (cues cue : list pyval) (finish time : pyval) (o : Q) :
  has_show_page s = false ->
  msg_data m !! "visemes" = Some (VList cues) ->
  last cues = Some (VList cue) ->
  cue !! 1%nat = Some finish ->
  py_add_int finish 5 = inl time ->
  py_float_operand time = inl o ->
  let s' := exec (on_handler_speaking py_str py_repr m) s in
  outcome (on_handler_speaking py_str py_repr m) s = inl tt
  /\ gui s' !! "state" = Some (VStr "speaking")
  /\ In (ShowPage "all.qml") (trace s')
  /\ (clock s + o <= idle_next s')%Q.
Proof.
  intros Hshown Hvis Hlast Hcue Hadd Hnum.
  unfold on_handler_speaking, getitem. run_method.
  cbn [has_show_page set_gui]. rewrite Hshown, Hvis. cbn [negb fst snd py_getitem_last].
  rewrite Hlast. cbn [fst snd py_getitem1]. rewrite Hcue. cbn [fst snd].
  rewrite Hadd. cbn [fst snd].
  set (s1 := add_trace _ _).
  split; [| split; [| split]].
  - now apply (start_idle_event_returns py_str py_repr s1 time o).
  - apply (start_idle_event_keeps_gui
             (fun g => g !! "state" = Some (VStr "speaking")) time false s1).
    apply lookup_insert_eq.
  - assert (K : keeps (fun s => In (ShowPage "all.qml") (trace s))
                  (start_idle_event py_str py_repr time false)).
    { unfold start_idle_event. keeps_split.
      all: apply keeps_modify; intros ? ?; cbn; try assumption;
        apply in_or_app; now left. }
    apply K. subst s1. cbn. apply in_or_app. right. now left.
  - exact (start_idle_event_deadline_reached s1 time o Hnum).
Qed.

(** X16. With no page of another skill up, an empty viseme list makes the
    handler raise [IndexError] once the speaking face is shown: the
    deadline and the timer are as they were. *)
Theorem speaking_without_visemes (s : skill) (m : message) :
  has_show_page s = false ->
  msg_data m !! "visemes" = Some (VList []) ->
  on_handler_speaking py_str py_repr m s
  = (inr IndexError,
     add_trace (ShowPage "all.qml")
       (set_gui <["state" := VStr "speaking"]>
          (set_gui <["viseme" := data_value (msg_data m)]> s))).
Proof.
  intros Hshown Hvis. unfold on_handler_speaking, getitem. run_method.
  cbn [has_show_page set_gui]. now rewrite Hshown, Hvis.
Qed.

(** ** The skill settings display *)

(** X17. [handle_skill_setting_show] ends in an exception on every event,
    and never changes a display value: [gui['skillConfig']] is never
    written. *)
Theorem skill_setting_show_never_reaches_display (s : skill) (m : message) :
  (exists e, outcome (handle_skill_setting_show py_str m) s = inr e)
  /\ gui (exec (handle_skill_setting_show py_str m) s) = gui s.
Proof.
  split; [apply handle_skill_setting_show_raises |].
  assert (K : keeps (fun s' => gui s' = gui s) (handle_skill_setting_show py_str m)).
  { unfold handle_skill_setting_show. keeps_field. }
  now apply K.
Qed.

Lemma alter_last {A} (f : A -> A) (l : list A) (x : A) :
  alter f (length l) (l ++ [x])%list = (l ++ [f x])%list.
Proof. induction l as [| y l IH]; cbn; [reflexivity | now f_equal]. Qed.

Lemma find_setting_app (l : list (list (string * pyval)))
    (item : list (string * pyval)) (data : gmap string pyval) (x y : pyval) :
  Forall (fun it => exists x', assoc "skill_id" it = Some x'
                               /\ py_eqb x' y = false) l ->
  data !! "skill_id" = Some y ->
  assoc "skill_id" item = Some x ->
  py_eqb x y = true ->
  find_setting (l ++ [item])%list data = inl (length l).
Proof.
  intros Hl Hy Hx Hxy. induction Hl as [| it l (x' & Hx' & Hne) _ IH]; cbn.
  - now rewrite Hx, Hy, Hxy.
  - now rewrite Hx', Hy, Hne, IH.
Qed.

(** X18. A "set" event followed by an "update" event for the same skill
    (a string id that no earlier entry carries): both calls end in
    [NameError], yet the list of settings has gained one entry, with the
    key, type and available values of the first event and the current
    value of the second. *)
Theorem skill_setting_set_then_update
    (s : skill) (m1 m2 : message) (id : string)
    (key type value1 values value2 : pyval) :
  msg_data m1 !! "method" = Some (VStr "set") ->
  msg_data m1 !! "skill_id" = Some (VStr id) ->
  msg_data m1 !! "setting_key" = Some key ->
  msg_data m1 !! "setting_type" = Some type ->
  msg_data m1 !! "current_value" = Some value1 ->
  msg_data m1 !! "available_values" = Some values ->
  msg_data m2 !! "method" = Some (VStr "update") ->
  msg_data m2 !! "skill_id" = Some (VStr id) ->
  msg_data m2 !! "current_value" = Some value2 ->
  Forall (fun it => exists x, assoc "skill_id" it = Some x
                              /\ py_eqb x (VStr id) = false)
    (skill_setting_list s) ->
  let s1 := exec (handle_skill_setting_show py_str m1) s in
  let s2 := exec (handle_skill_setting_show py_str m2) s1 in
  outcome (handle_skill_setting_show py_str m1) s = inr (NameError "skill_setting_obj")
  /\ outcome (handle_skill_setting_show py_str m2) s1 = inr (NameError "skill_setting_obj")
  /\ skill_setting_list s2
     = (skill_setting_list s ++
        [[("skill_id", VStr id); ("setting_key", key); ("setting_type", type);
          ("current_value", value2); ("available_values", values)]])%list.
Proof.
  intros Hm1 Hid1 Hkey Htype Hv1 Hvals Hm2 Hid2 Hv2 Hold.
  assert (E1 : handle_skill_setting_show py_str m1 s
               = (inr (NameError "skill_setting_obj"),
                  set_skill_setting_obj_configs true
                    (set_skill_setting_list (fun l => (l ++
                       [[("skill_id", VStr id); ("setting_key", key);
                         ("setting_type", type); ("current_value", value1);
                         ("available_values", values)]])%list) s))).
  { unfold handle_skill_setting_show, getitem. run_method.
    rewrite Hm1. cbn. now rewrite Hid1, Hkey, Htype, Hv1, Hvals. }
  unfold exec, outcome. rewrite E1. cbn [fst snd].
  split; [reflexivity |].
  set (entry := [("skill_id", VStr id); ("setting_key", key);
                 ("setting_type", type); ("current_value", value1);
                 ("available_values", values)]).
  assert (Hfind : find_setting (skill_setting_list s ++ [entry])%list (msg_data m2)
                  = inl (length (skill_setting_list s))).
  { apply (find_setting_app _ entry _ (VStr id) (VStr id)); auto.
    cbn. apply String.eqb_refl. }
  unfold handle_skill_setting_show, getitem. run_method.
  rewrite Hm2. cbn [fst snd py_eqb String.eqb Ascii.eqb Bool.eqb].
  cbn [skill_setting_list set_skill_setting_obj_configs set_skill_setting_list].
  rewrite Hfind. cbn [fst snd]. rewrite Hv2. cbn [fst snd].
  split; [reflexivity |].
  cbn [skill_setting_list set_skill_setting_obj_configs set_skill_setting_list
       add_trace].
  rewrite alter_last. reflexivity.
Qed.

(** X19. An "update" event while no setting has been recorded raises
    [StopIteration] and changes nothing, whatever else the event carries. *)
Theorem skill_setting_update_without_entry (s : skill) (m : message) :
  msg_data m !! "method" = Some (VStr "update") ->
  skill_setting_list s = [] ->
  handle_skill_setting_show py_str m s = (inr StopIteration, s).
Proof.
  intros Hm Hl. unfold handle_skill_setting_show, getitem. run_method.
  rewrite Hm. cbn. now rewrite Hl.
Qed.

(** ** Start and stop of the skill *)

(** X20. [initialize] returns normally from every state: what goes wrong
    while the idle screen is shown at the end is caught and logged. *)
Theorem initialize_never_raises (s : skill) :
  outcome (initialize py_str) s = inl tt.
Proof.
  unfold initialize, collect_resting_screens. run_method.
  match goal with
  | |- context [show_idle_screen py_str ?s0] =>
      destruct (show_idle_screen py_str s0) as [[[] | e] s1]
  end; reflexivity.
Qed.

(** X21. On a new skill, [initialize] sends one bus event, the request to
    collect the idle screens, and no idle event, as nothing is registered
    yet; the screen selected is the one stored in the settings, or
    AndroidHomescreen when none is stored; the display is left loading. *)
Theorem initialize_new_skill (stored : gmap string pyval) (now : Q) :
  let s' := exec (initialize py_str) (new_skill stored now) in
  emitted (initialize py_str) (new_skill stored now)
  = [Message "mycroft.mark2.collect_idle" ∅]
  /\ gui s' !! "selected"
     = Some (match stored !! "selected" with
             | Some v => v
             | None => VStr "AndroidHomescreen"
             end)
  /\ gui s' !! "state" = Some (VStr "loading")
  /\ idle_screens s' = []
  /\ idle_check s' = None.
Proof.
  unfold initialize, collect_resting_screens, show_idle_screen. run_method.
  cbn. repeat split.
  rewrite lookup_insert_ne by discriminate. rewrite lookup_insert_eq.
  unfold get_default.
  rewrite !lookup_insert_ne by discriminate. reflexivity.
Qed.

(** X22. [shutdown] does not take off the bus all that [initialize] put on
    it with [bus.on]: the handlers for mycroft.gui.screen.close,
    mycroft.skills.initialized and gui.skill.settings.show stay. *)
Theorem shutdown_leaves_handlers (stored : gmap string pyval) (now : Q) :
  bus_after shutdown
    (bus_handlers (trace (exec (initialize py_str) (new_skill stored now))))
  = [("mycroft.gui.screen.close", H_force_idle_screen);
     ("mycroft.skills.initialized", H_reset_face);
     ("gui.skill.settings.show", H_handle_skill_setting_show)].
Proof.
  unfold initialize, collect_resting_screens, show_idle_screen. run_method.
  reflexivity.
Qed.

(** ** The home-screen settings page *)

Lemma dict_get_middle (pre suf : pydict) (k v : pyval) :
  distinct_keys (pre ++ (k, v) :: suf)%list = true ->
  dict_get k (pre ++ (k, v) :: suf)%list = Some v.
Proof.
  induction pre as [| [k0 v0] pre IH]; cbn [app distinct_keys dict_get]; intros H.
  - apply andb_true_iff in H as [H _]. apply andb_true_iff in H as [Hh _].
    now rewrite py_eqb_refl.
  - apply andb_true_iff in H as [H Hd]. apply andb_true_iff in H as [_ Hall].
    rewrite forallb_app in Hall. apply andb_true_iff in Hall as [_ Hall].
    cbn in Hall. apply andb_true_iff in Hall as [Hk _].
    apply negb_true_iff in Hk. rewrite Hk. now apply IH.
Qed.

Lemma screen_entries_suffix (pre suf : pydict) :
  distinct_keys (pre ++ suf)%list = true ->
  screen_entries (map fst suf) (pre ++ suf)%list
  = inl (map (fun kv => screen_entry (fst kv) (snd kv)) suf).
Proof.
  revert pre. induction suf as [| [k v] suf IH]; intros pre H; [reflexivity |].
  cbn [map fst snd screen_entries]. rewrite (dict_get_middle pre suf k v H).
  specialize (IH (pre ++ [(k, v)])%list). rewrite <- app_assoc in IH.
  cbn [app] in IH. now rewrite (IH H).
Qed.

(** X27. With a selection in place and a registry whose keys are distinct,
    the home-screen settings page is given one entry for each registered
    screen, in the order of registration, with its name and id, and the
    current selection; the handler returns normally. *)
Theorem homescreen_settings_lists_registry (s : skill) (m : message) (selected : pyval) :
  distinct_keys (idle_screens s) = true ->
  gui s !! "selected" = Some selected ->
  let s' := exec (handle_device_homescreen_settings m) s in
  outcome (handle_device_homescreen_settings m) s = inl tt
  /\ gui s' !! "idleScreenList"
     = Some (VDict [("screenBlob",
                     VList (map (fun kv => screen_entry (fst kv) (snd kv))
                              (idle_screens s)))])
  /\ gui s' !! "selectedScreen" = Some selected
  /\ gui s' !! "state" = Some (VStr "settings/homescreen_settings").
Proof.
  intros Hd Hsel. unfold handle_device_homescreen_settings, getitem. run_method.
  pose proof (screen_entries_suffix [] (idle_screens s) Hd) as E.
  cbn [app] in E. rewrite E.
  cbn [fst snd gui set_gui]. rewrite lookup_insert_ne by discriminate.
  rewrite Hsel. cbn. repeat split.
  - rewrite !lookup_insert_ne by discriminate. apply lookup_insert_eq.
  - rewrite lookup_insert_ne by discriminate. apply lookup_insert_eq.
  - apply lookup_insert_eq.
Qed.

(** ** Cancelling and starting *)


(** X30. The offset of [start_idle_event] is added to the clock before the
    [try]: an integer offset with no float (2^1024 - 2^970 or more in
    absolute value) makes the call raise [OverflowError], and an offset
    that is not a number [TypeError]; either way the state is left exactly
    as it was, weak or not. *)
Theorem start_idle_event_bad_offset (s : skill) (offset : pyval) (weak : bool) :
  float_limit = 2 ^ 1024 - 2 ^ 970
  /\ (forall z, offset = VInt z -> float_limit <= Z.abs z ->
      start_idle_event py_str py_repr offset weak s = (inr OverflowError, s))
  /\ (py_number offset = None ->
      start_idle_event py_str py_repr offset weak s = (inr TypeError, s)).
Proof.
  split; [vm_compute; reflexivity |]. split.
  - intros z -> Hz. apply start_idle_event_raises.
    apply py_float_operand_big. unfold int_fits_float. now apply Z.ltb_ge.
  - intros Hnum. apply start_idle_event_raises.
    destruct offset; try discriminate Hnum; reflexivity.
Qed.

(** ** What is never subscribed *)

Lemma keeps_no_subscription (t0 : list action) (a : action) :
  subscribes_handler_complete a = false ->
  keeps (fun s => List.filter subscribes_handler_complete (trace s) = t0)
    (modify (add_trace a)).
Proof.
  intros Ha s H. unfold exec, modify. cbn.
  rewrite List.filter_app, H. cbn. rewrite Ha. cbn. apply app_nil_r.
Qed.

Ltac keeps_trace :=
  first [ apply keeps_no_subscription; reflexivity
        | apply keeps_modify; intros ? H; cbn; first [exact H |
            rewrite List.filter_app, H; cbn; apply app_nil_r ] ].

Lemma show_idle_screen_keeps_subscriptions (t0 : list action) :
  keeps (fun s => List.filter subscribes_handler_complete (trace s) = t0)
    (show_idle_screen py_str).
Proof. unfold show_idle_screen. keeps_split; keeps_trace. Qed.

Lemma start_idle_event_keeps_subscriptions (t0 : list action) offset weak :
  keeps (fun s => List.filter subscribes_handler_complete (trace s) = t0)
    (start_idle_event py_str py_repr offset weak).
Proof. unfold start_idle_event. keeps_split; keeps_trace. Qed.

Lemma run_call_keeps_subscriptions (t0 : list action) (c : call) :
  keeps (fun s => List.filter subscribes_handler_complete (trace s) = t0)
    (run_call py_str py_repr c).
Proof.
  destruct c; cbn [run_call]; keeps_calls;
    first [ apply show_idle_screen_keeps_subscriptions
          | apply start_idle_event_keeps_subscriptions
          | keeps_trace ].
Qed.

(** X29. No call, [initialize] included, ever attaches
    [on_handler_complete] to an event: over every sequence of calls the
    trace gains no subscription of it, so the bus never delivers the end of
    a handler to the skill. *)
Theorem handler_complete_is_never_subscribed (cs : list call) (s : skill) :
  List.filter subscribes_handler_complete (trace (run_calls py_str py_repr cs s))
  = List.filter subscribes_handler_complete (trace s).
Proof.
  apply (run_calls_keeps
           (fun s' => List.filter subscribes_handler_complete (trace s')
                      = List.filter subscribes_handler_complete (trace s))
           (fun _ => true)).
  - intros c _. apply run_call_keeps_subscriptions.
  - clear. induction cs; cbn; auto.
  - reflexivity.
Qed.

End MoreProperties.

(** * The properties at work on concrete runs *)

Lemma on_register_idle_malformed_witness :
  (msg_data register_idle_no_id !! "id" = None
   \/ msg_data register_idle_no_id !! "name" = None)
  /\ outcome (on_register_idle str_sample register_idle_no_id) two_screens = inl tt
  /\ idle_screens (exec (on_register_idle str_sample register_idle_no_id) two_screens)
     = idle_screens two_screens.
Proof.
  assert (H : msg_data register_idle_no_id !! "id" = None
              \/ msg_data register_idle_no_id !! "name" = None)
    by (left; reflexivity).
  split; [exact H |].
  destruct (on_register_idle_malformed str_sample register_idle_no_id two_screens H)
    as (Hout & _ & Hreg).
  split; assumption.
Defined.

Lemma cancel_then_show_empty_registry_witness :
  idle_screens fresh = [] /\ override_idle fresh = None
  /\ emitted (cancel_idle_event;; show_idle_screen str_sample) fresh = [].
Proof.
  split; [reflexivity |]. split; [reflexivity |].
  exact (proj1 (cancel_then_show_empty_registry str_sample fresh eq_refl eq_refl)).
Defined.


Lemma page_show_idle_true_suppresses_witness :
  py_contains "remote-platform"
    (get_default (msg_data (page_show_msg (VBool true))) "__from" (VStr ""))
    = inl false
  /\ msg_data (page_show_msg (VBool true)) !! "__idle" = Some (VBool true)
  /\ idle_check (exec (on_gui_page_show str_sample repr_sample
                         (page_show_msg (VBool true))) after_interaction)
     = None
  /\ override_idle (exec (on_gui_page_show str_sample repr_sample
                            (page_show_msg (VBool true))) after_interaction)
     = Some (page_show_msg (VBool true), clock after_interaction).
Proof.
  split; [reflexivity |]. split; [reflexivity |].
  destruct (page_show_idle_true_suppresses str_sample repr_sample
              after_interaction (page_show_msg (VBool true)) eq_refl eq_refl)
    as (_ & _ & Hcheck & Hov & _).
  split; [exact Hcheck | exact Hov].
Defined.

Lemma page_show_numeric_idle_witness :
  py_contains "remote-platform"
    (get_default (msg_data (page_show_msg (VInt 15))) "__from" (VStr ""))
    = inl false
  /\ msg_data (page_show_msg (VInt 15)) !! "__idle" = Some (VInt 15)
  /\ int_fits_float 15 = true
  /\ (idle_next fresh <= clock fresh + inject_Z 15)%Q
  /\ idle_next (exec (on_gui_page_show str_sample repr_sample
                        (page_show_msg (VInt 15))) fresh)
     = (clock fresh + inject_Z 15)%Q.
Proof.
  assert (Hgate : (idle_next fresh <= clock fresh + inject_Z 15)%Q)
    by (vm_compute; discriminate).
  split; [reflexivity |]. split; [reflexivity |]. split; [reflexivity |].
  split; [exact Hgate |].
  destruct (page_show_numeric_idle str_sample repr_sample fresh
              (page_show_msg (VInt 15)) 15 eq_refl eq_refl)
    as (Hfits & _).
  destruct (Hfits eq_refl) as (_ & Hpass & _).
  exact (proj1 (Hpass Hgate)).
Defined.

Lemma on_gui_page_show_failure_semantics_witness :
  get_default (msg_data page_show_bare) "__from" (VStr "") = VStr ""
  /\ on_gui_page_show str_sample repr_sample page_show_bare fresh
     = (inr (KeyError (VStr "page")), set_has_show_page true fresh).
Proof.
  split; [reflexivity |].
  destruct (on_gui_page_show_failure_semantics str_sample repr_sample fresh
              page_show_bare "" eq_refl)
    as (_ & _ & _ & Hraise & _).
  exact (Hraise eq_refl eq_refl eq_refl).
Defined.

Lemma on_handler_complete_resets_witness :
  get_default (msg_data (handler_complete_msg "WeatherSkill.handle_forecast"))
    "handler" (VStr "")
    = VStr "WeatherSkill.handle_forecast"
  /\ on_handler_complete (handler_complete_msg "WeatherSkill.handle_forecast")
       (set_has_show_page true fresh)
     = (inl tt, set_has_show_page false (set_has_show_page true fresh)).
Proof.
  split; [reflexivity |].
  exact (on_handler_complete_resets (set_has_show_page true fresh)
           (handler_complete_msg "WeatherSkill.handle_forecast")
           "WeatherSkill.handle_forecast" eq_refl).
Defined.

Lemma force_idle_screen_override_witness :
  override_idle (overridden 1) = Some (page_show_msg (VBool true), 0%Q)
  /\ override_idle (overridden 3) = Some (page_show_msg (VBool true), 0%Q)
  /\ emitted (force_idle_screen str_sample) (overridden 1)
     = [page_show_msg (VBool true)]
  /\ override_idle (exec (force_idle_screen str_sample) (overridden 3)) = None
  /\ emitted (force_idle_screen str_sample) (overridden 3)
     = [Message "id2.idle" ∅].
Proof.
  split; [reflexivity |]. split; [reflexivity |].
  destruct (force_idle_screen_override str_sample (overridden 1)
              (page_show_msg (VBool true)) 0%Q eq_refl) as (Hearly & _).
  destruct (force_idle_screen_override str_sample (overridden 3)
              (page_show_msg (VBool true)) 0%Q eq_refl) as (_ & Hlate).
  assert (H1 : (clock (overridden 1) - 0 <= 2)%Q) by (vm_compute; discriminate).
  assert (H3 : (2 < clock (overridden 3) - 0)%Q) by reflexivity.
  split; [exact (proj1 (Hearly H1)) |].
  destruct (Hlate H3) as (Hclear & Hshow).
  split; [exact Hclear |].
  exact (Hshow (VStr "B") (VStr "id2") eq_refl eq_refl eq_refl eq_refl).
Defined.

Lemma show_selected_registered_screen_witness :
  (forall x, str_sample (VStr x) = x)
  /\ "id2" <> ""
  /\ override_idle fresh = None
  /\ emitted (show_idle_screen str_sample)
       (exec (on_register_idle str_sample (register_idle_msg (VStr "A") (VStr "id1"));;
              on_register_idle str_sample (register_idle_msg (VStr "B") (VStr "id2"));;
              set_idle_screen (set_idle_msg (VStr "B"))) fresh)
     = [Message "id2.idle" ∅].
Proof.
  assert (Hstr : forall x, str_sample (VStr x) = x) by reflexivity.
  assert (Hid : "id2" <> "") by discriminate.
  split; [exact Hstr |]. split; [exact Hid |]. split; [reflexivity |].
  destruct (show_selected_registered_screen str_sample fresh
              (register_idle_msg (VStr "A") (VStr "id1"))
              (register_idle_msg (VStr "B") (VStr "id2"))
              (set_idle_msg (VStr "B")) "A" "B" "id1" "id2"
              Hstr eq_refl eq_refl eq_refl eq_refl eq_refl Hid eq_refl)
    as (_ & _ & Hemit).
  exact Hemit.
Defined.

(** ** Further properties on concrete runs *)

Lemma register_then_lookup_witness :
  msg_data (register_idle_msg (VStr "A") (VStr "id3")) !! "name" = Some (VStr "A")
  /\ msg_data (register_idle_msg (VStr "A") (VStr "id3")) !! "id" = Some (VStr "id3")
  /\ dict_get (VStr "A")
       (idle_screens (exec (on_register_idle str_sample
                              (register_idle_msg (VStr "A") (VStr "id3")))
                        two_screens))
     = Some (VStr "id3").
Proof.
  split; [reflexivity |]. split; [reflexivity |].
  destruct (register_then_lookup str_sample two_screens
              (register_idle_msg (VStr "A") (VStr "id3")) "A" (VStr "id3")
              eq_refl eq_refl) as (_ & Hget & _).
  exact Hget.
Defined.

Lemma register_unhashable_name_witness :
  msg_data register_idle_list_name !! "name" = Some (VList [VStr "A"])
  /\ msg_data register_idle_list_name !! "id" = Some (VStr "id1")
  /\ py_hashable (VList [VStr "A"]) = false
  /\ on_register_idle str_sample register_idle_list_name fresh
     = (inr TypeError, fresh).
Proof.
  split; [reflexivity |]. split; [reflexivity |]. split; [reflexivity |].
  exact (register_unhashable_name str_sample fresh register_idle_list_name
           (VList [VStr "A"]) (VStr "id1") eq_refl eq_refl eq_refl).
Defined.

Lemma set_idle_screen_stores_selection_witness :
  msg_data (set_idle_msg (VStr "C")) !! "selected" = Some (VStr "C")
  /\ dict_get (VStr "C") (idle_screens two_screens) = None
  /\ gui (exec (set_idle_screen (set_idle_msg (VStr "C"))) two_screens) !! "selected"
     = Some (VStr "C")
  /\ set_idle_screen page_show_bare two_screens
     = (inr (KeyError (VStr "selected")), two_screens).
Proof.
  split; [reflexivity |]. split; [reflexivity |].
  destruct (set_idle_screen_stores_selection two_screens (set_idle_msg (VStr "C")))
    as (Hset & _).
  destruct (set_idle_screen_stores_selection two_screens page_show_bare)
    as (_ & Hnone).
  split; [exact (proj1 (proj2 (Hset (VStr "C") eq_refl))) | exact (Hnone eq_refl)].
Defined.

Lemma show_unregistered_selection_witness :
  override_idle unregistered_selection = None
  /\ gui unregistered_selection !! "selected" = Some (VStr "C")
  /\ dict_get (VStr "C") (idle_screens unregistered_selection) = None
  /\ emitted (show_idle_screen str_sample) unregistered_selection = [].
Proof.
  split; [reflexivity |]. split; [reflexivity |]. split; [reflexivity |].
  destruct (show_unregistered_selection str_sample unregistered_selection
              (VStr "C") eq_refl eq_refl) as (H & _).
  exact (proj2 (H eq_refl eq_refl)).
Defined.

Lemma timer_fires_under_override_witness :
  idle_check overridden_pending = Some 30
  /\ override_idle overridden_pending = Some (page_show_msg (VBool true), 0%Q)
  /\ emitted (idle_check_fires str_sample) overridden_pending
     = [page_show_msg (VBool true)]
  /\ idle_check (exec (idle_check_fires str_sample) overridden_pending) = None.
Proof.
  split; [reflexivity |]. split; [reflexivity |].
  destruct (timer_fires_under_override str_sample overridden_pending 30
              (page_show_msg (VBool true)) 0%Q eq_refl eq_refl)
    as (_ & Hemit & Hchk & _).
  split; [exact Hemit | exact Hchk].
Defined.

Lemma force_home_ignores_override_witness :
  override_idle (overridden 1) = Some (page_show_msg (VBool true), 0%Q)
  /\ emitted (force_home str_sample) (overridden 1) = [Message "id2.idle" ∅]
  /\ force_home str_sample fresh = (inr (KeyError (VStr "selected")), fresh).
Proof.
  split; [reflexivity |].
  destruct (force_home_ignores_override str_sample (overridden 1)) as (H & _).
  destruct (force_home_ignores_override str_sample fresh) as (_ & Hnone).
  split.
  - exact (proj1 (proj2 (H (VStr "B") (VStr "id2") eq_refl eq_refl eq_refl eq_refl))).
  - exact (Hnone eq_refl).
Defined.

Lemma stop_and_override_witness :
  override_idle (overridden 1) = Some (page_show_msg (VBool true), 0%Q)
  /\ (clock (overridden 1) - 0 <= 2)%Q
  /\ (2 < clock (overridden 3) - 0)%Q
  /\ outcome (stop str_sample) (overridden 1) = inl false
  /\ emitted (stop str_sample) (overridden 1) = []
  /\ override_idle (exec (stop str_sample) (overridden 3)) = None.
Proof.
  assert (H1 : (clock (overridden 1) - 0 <= 2)%Q) by (vm_compute; discriminate).
  assert (H3 : (2 < clock (overridden 3) - 0)%Q) by reflexivity.
  split; [reflexivity |]. split; [exact H1 |]. split; [exact H3 |].
  destruct (stop_and_override str_sample (overridden 1)) as (Hfresh & _).
  destruct (stop_and_override str_sample (overridden 3)) as (_ & Hold).
  destruct (Hfresh (or_intror (ex_intro _ (page_show_msg (VBool true))
                                 (ex_intro _ 0%Q (conj eq_refl H1)))))
    as (Hout & Hemit & _).
  split; [exact Hout |]. split; [exact Hemit |].
  exact (proj1 (Hold (page_show_msg (VBool true)) 0%Q eq_refl H3)).
Defined.

Lemma page_show_of_idle_page_witness :
  py_contains "remote-platform"
    (get_default (msg_data idle_page_msg) "__from" (VStr "")) = inl false
  /\ py_is_int (get_default (msg_data idle_page_msg) "__idle" VNone) = None
  /\ msg_data idle_page_msg !! "page" = Some (VList [VStr "pages/idle.qml"])
  /\ str_endswith "pages/idle.qml" "idle.qml" = true
  /\ on_gui_page_show str_sample repr_sample idle_page_msg after_interaction
     = (inl tt, set_has_show_page true after_interaction).
Proof.
  split; [reflexivity |]. split; [reflexivity |]. split; [reflexivity |].
  split; [reflexivity |].
  exact (page_show_of_idle_page str_sample repr_sample after_interaction
           idle_page_msg "pages/idle.qml" [] eq_refl eq_refl eq_refl eq_refl).
Defined.

Lemma page_show_marks_page_shown_witness :
  py_contains "remote-platform"
    (get_default (msg_data page_show_bare) "__from" (VStr "")) = inl false
  /\ has_show_page (exec (on_gui_page_show str_sample repr_sample page_show_bare) fresh)
     = true.
Proof.
  split; [reflexivity |].
  exact (page_show_marks_page_shown str_sample repr_sample fresh page_show_bare
           eq_refl).
Defined.

Lemma page_show_idle_false_is_zero_witness :
  py_contains "remote-platform"
    (get_default (msg_data (page_show_msg (VBool false))) "__from" (VStr ""))
    = inl false
  /\ msg_data (page_show_msg (VBool false)) !! "__idle" = Some (VBool false)
  /\ (idle_next fresh <= clock fresh + 0)%Q
  /\ idle_check (exec (on_gui_page_show str_sample repr_sample
                         (page_show_msg (VBool false))) fresh)
     = Some 0.
Proof.
  assert (Hgate : (idle_next fresh <= clock fresh + 0)%Q)
    by (vm_compute; discriminate).
  split; [reflexivity |]. split; [reflexivity |]. split; [exact Hgate |].
  destruct (page_show_idle_false_is_zero str_sample repr_sample fresh
              (page_show_msg (VBool false)) eq_refl eq_refl Hgate)
    as (_ & _ & Hchk & _).
  exact Hchk.
Defined.

Lemma speaking_respects_shown_page_witness :
  has_show_page (set_has_show_page true fresh) = true
  /\ on_handler_speaking str_sample repr_sample viseme_msg_empty
       (set_has_show_page true fresh)
     = (inl tt,
        set_gui <["viseme" := data_value (msg_data viseme_msg_empty)]>
          (set_has_show_page true fresh)).
Proof.
  split; [reflexivity |].
  exact (speaking_respects_shown_page str_sample repr_sample
           (set_has_show_page true fresh) viseme_msg_empty eq_refl).
Defined.

Lemma speaking_schedules_idle_witness :
  has_show_page fresh = false
  /\ msg_data (viseme_msg (VFloat (3 # 2))) !! "visemes"
     = Some (VList [VList [VStr "4"; VFloat (3 # 2)]])
  /\ py_add_int (VFloat (3 # 2)) 5 = inl (VFloat ((3 # 2) + inject_Z 5))
  /\ py_float_operand (VFloat ((3 # 2) + inject_Z 5)) = inl ((3 # 2) + inject_Z 5)%Q
  /\ outcome (on_handler_speaking str_sample repr_sample
                (viseme_msg (VFloat (3 # 2)))) fresh = inl tt
  /\ (clock fresh + ((3 # 2) + inject_Z 5)
      <= idle_next (exec (on_handler_speaking str_sample repr_sample
                            (viseme_msg (VFloat (3 # 2)))) fresh))%Q.
Proof.
  split; [reflexivity |]. split; [reflexivity |]. split; [reflexivity |].
  split; [reflexivity |].
  destruct (speaking_schedules_idle str_sample repr_sample fresh
              (viseme_msg (VFloat (3 # 2)))
              [VList [VStr "4"; VFloat (3 # 2)]] [VStr "4"; VFloat (3 # 2)]
              (VFloat (3 # 2)) (VFloat ((3 # 2) + inject_Z 5))
              ((3 # 2) + inject_Z 5)%Q
              eq_refl eq_refl eq_refl eq_refl eq_refl eq_refl)
    as (Hout & _ & _ & Hdue).
  split; [exact Hout | exact Hdue].
Defined.

Lemma speaking_without_visemes_witness :
  has_show_page fresh = false
  /\ msg_data viseme_msg_empty !! "visemes" = Some (VList [])
  /\ outcome (on_handler_speaking str_sample repr_sample viseme_msg_empty) fresh
     = inr IndexError.
Proof.
  split; [reflexivity |]. split; [reflexivity |].
  unfold outcome.
  rewrite (speaking_without_visemes str_sample repr_sample fresh viseme_msg_empty
             eq_refl eq_refl).
  reflexivity.
Defined.

Lemma skill_setting_set_then_update_witness :
  msg_data setting_set_msg !! "method" = Some (VStr "set")
  /\ msg_data setting_update_msg !! "method" = Some (VStr "update")
  /\ skill_setting_list fresh = []
  /\ skill_setting_list
       (exec (handle_skill_setting_show str_sample setting_update_msg)
          (exec (handle_skill_setting_show str_sample setting_set_msg) fresh))
     = [[("skill_id", VStr "weather"); ("setting_key", VStr "units");
         ("setting_type", VStr "select"); ("current_value", VStr "imperial");
         ("available_values", VList [VStr "metric"; VStr "imperial"])]].
Proof.
  split; [reflexivity |]. split; [reflexivity |]. split; [reflexivity |].
  destruct (skill_setting_set_then_update str_sample fresh
              setting_set_msg setting_update_msg "weather"
              (VStr "units") (VStr "select") (VStr "metric")
              (VList [VStr "metric"; VStr "imperial"]) (VStr "imperial")
              eq_refl eq_refl eq_refl eq_refl eq_refl eq_refl
              eq_refl eq_refl eq_refl (List.Forall_nil _))
    as (_ & _ & Hlist).
  exact Hlist.
Defined.

Lemma skill_setting_update_without_entry_witness :
  msg_data setting_update_msg !! "method" = Some (VStr "update")
  /\ skill_setting_list fresh = []
  /\ handle_skill_setting_show str_sample setting_update_msg fresh
     = (inr StopIteration, fresh).
Proof.
  split; [reflexivity |]. split; [reflexivity |].
  exact (skill_setting_update_without_entry str_sample fresh setting_update_msg
           eq_refl eq_refl).
Defined.

Lemma registry_keys_stay_distinct_witness :
  distinct_keys (idle_screens two_screens) = true
  /\ distinct_keys
       (idle_screens (run_calls str_sample repr_sample sample_calls two_screens))
     = true.
Proof.
  split; [reflexivity |].
  exact (registry_keys_stay_distinct str_sample repr_sample sample_calls
           two_screens eq_refl).
Defined.

Lemma registered_screen_stays_witness :
  is_Some (dict_get (VStr "B") (idle_screens two_screens))
  /\ is_Some (dict_get (VStr "B")
                (idle_screens (run_calls str_sample repr_sample sample_calls
                                 two_screens))).
Proof.
  assert (H : is_Some (dict_get (VStr "B") (idle_screens two_screens)))
    by (exists (VStr "id2"); reflexivity).
  split; [exact H |].
  exact (registered_screen_stays str_sample repr_sample sample_calls two_screens
           (VStr "B") H).
Defined.


Lemma override_outlives_other_calls_witness :
  forallb (fun c => negb (may_clear_override c)) sample_calls = true
  /\ is_Some (override_idle (overridden 1))
  /\ is_Some (override_idle (run_calls str_sample repr_sample sample_calls
                               (overridden 1))).
Proof.
  assert (H : is_Some (override_idle (overridden 1)))
    by (exists (page_show_msg (VBool true), 0%Q); reflexivity).
  split; [reflexivity |]. split; [exact H |].
  exact (override_outlives_other_calls str_sample repr_sample sample_calls
           (overridden 1) eq_refl H).
Defined.

Lemma homescreen_settings_lists_registry_witness :
  distinct_keys (idle_screens two_screens) = true
  /\ gui two_screens !! "selected" = Some (VStr "B")
  /\ gui (exec (handle_device_homescreen_settings page_show_bare) two_screens)
       !! "idleScreenList"
     = Some (VDict [("screenBlob",
                     VList [screen_entry (VStr "A") (VStr "id1");
                            screen_entry (VStr "B") (VStr "id2")])]).
Proof.
  split; [reflexivity |]. split; [reflexivity |].
  destruct (homescreen_settings_lists_registry two_screens page_show_bare
              (VStr "B") eq_refl eq_refl) as (_ & Hlist & _).
  exact Hlist.
Defined.


Lemma start_idle_event_bad_offset_witness :
  float_limit <= Z.abs float_limit
  /\ start_idle_event str_sample repr_sample (VInt float_limit) false
       after_interaction
     = (inr OverflowError, after_interaction)
  /\ py_number (VStr "30") = None
  /\ start_idle_event str_sample repr_sample (VStr "30") false after_interaction
     = (inr TypeError, after_interaction).
Proof.
  assert (H : float_limit <= Z.abs float_limit) by (vm_compute; discriminate).
  destruct (start_idle_event_bad_offset str_sample repr_sample after_interaction
              (VInt float_limit) false) as (_ & Hbig & _).
  destruct (start_idle_event_bad_offset str_sample repr_sample after_interaction
              (VStr "30") false) as (_ & _ & Hstr).
  split; [exact H |]. split; [exact (Hbig float_limit eq_refl H) |].
  split; [reflexivity | exact (Hstr eq_refl)].
Defined.

(** * Where the code departs from the description *)

(** A timer that fires leaves the deadline where it was: eleven seconds
    after a request for 10 seconds, the idle screen has been shown and
    [idle_next] is still 10. *)
Example timer_fire_keeps_idle_next :
  idle_next (timer_run str_sample repr_sample
               [StartIdle (VInt 10) false; Elapse 11; TimerFires] cancelled)
  = 10%Q
  /\ idle_check (timer_run str_sample repr_sample
                   [StartIdle (VInt 10) false; Elapse 11; TimerFires] cancelled)
     = None.
Proof. split; reflexivity. Qed.


(** C2 fails as stated: with the idle screen due at 30 seconds, a page shown
    at 0.5 seconds with [__idle = 15] leaves the deadline at 30, which is
    not about 15.5. *)
Lemma page_show_15_keeps_later_deadline :
  (clock after_interaction + 15 < idle_next after_interaction)%Q
  /\ idle_next (exec (on_gui_page_show str_sample repr_sample
                        (page_show_msg (VInt 15))) after_interaction)
     = 30%Q
  /\ ~ near (idle_next (exec (on_gui_page_show str_sample repr_sample
                                (page_show_msg (VInt 15))) after_interaction))
         (clock after_interaction + 15)%Q.
Proof.
  split; [reflexivity |]. split; [reflexivity |].
  intros [_ Hle]. vm_compute in Hle. apply Hle. reflexivity.
Qed.

(** C3 fails as stated: a page-shown event with an empty payload makes
    [on_gui_page_show] raise [KeyError('page')]. *)
Lemma on_gui_page_show_raises_on_bare_event :
  outcome (on_gui_page_show str_sample repr_sample page_show_bare) fresh
  = inr (KeyError (VStr "page")).
Proof. reflexivity. Qed.

(** C5 fails as stated: the end of a handler of the background clock, whose
    name does not name the controller, leaves [has_show_page] set. *)
Lemma on_handler_complete_ignores_clock_skill :
  str_contains "RemotePlatform" "TimeSkill.update_display" = false
  /\ has_show_page
       (exec (on_handler_complete (handler_complete_msg "TimeSkill.update_display"))
          (set_has_show_page true fresh))
     = true.
Proof. split; reflexivity. Qed.
